(** * Manas Planner: the drone status display of [mission_planner/ui/main_window.py]

    A shallow embedding of [DroneStatusCard] and [MissionPlannerWindow]: the
    attributes the two classes store, their setter methods, and the gating of
    coordinate updates by the per-drone GPS flag.  Layout, styling and image
    loading build Qt widgets that no method reads back; they are left out.

    - a Python [str] is a [string], one character per code point below 256;
    - a Python [float] is a primitive binary64 [float]; where a caller may
      pass an [int] for it, the argument is a [number];
    - a [dict] keyed by [str] is a [gmap string];
    - a method is a state transformer that returns or raises. *)

From Stdlib Require Import ZArith NArith String Ascii List Bool Lia.
From Stdlib Require Import DecimalString.
From Stdlib Require Import Floats.PrimFloat Floats.SpecFloat Floats.FloatOps.
From Stdlib Require Import Floats.FloatAxioms.
From stdpp Require Import gmap strings.

Local Open Scope string_scope.
#[local] Set Warnings "-inexact-float".

(** ** Python values used by the window *)

Module Py.

(** *** [str.strip] and [str.lower] *)

(** [str.isspace] on one code point below 256: TAB..CR, FS..US, SPACE,
    NEL (0x85) and NBSP (0xA0). *)
Definition isspace (c : ascii) : bool :=
  let n := N_of_ascii c in
  ((9 <=? n) && (n <=? 13) || (28 <=? n) && (n <=? 32)
   || (n =? 133) || (n =? 160))%N.

Fixpoint lstrip (s : string) : string :=
  match s with
  | EmptyString => EmptyString
  | String c s' => if isspace c then lstrip s' else s
  end.

Fixpoint rstrip (s : string) : string :=
  match s with
  | EmptyString => EmptyString
  | String c s' =>
      match rstrip s' with
      | EmptyString => if isspace c then EmptyString else String c EmptyString
      | r => String c r
      end
  end.

Definition strip (s : string) : string := rstrip (lstrip s).

(** [str.lower] on one code point below 256: A..Z and the Latin-1 capitals
    (0xC0..0xDE without the multiplication sign 0xD7) move up by 32. *)
Definition lower_char (c : ascii) : ascii :=
  let n := N_of_ascii c in
  if ((65 <=? n) && (n <=? 90) || (192 <=? n) && (n <=? 214)
      || (216 <=? n) && (n <=? 222))%N
  then ascii_of_N (n + 32) else c.

Fixpoint lower (s : string) : string :=
  match s with
  | EmptyString => EmptyString
  | String c s' => String (lower_char c) (lower s')
  end.

(** *** Fixed-point formatting of a float: [f"{x:.{d}f}"] *)

Definition sign_text (negative : bool) : string :=
  if negative then "-" else "".

(** The [d] low decimal digits of [n], most significant first. *)
Fixpoint fixed_digits (d : nat) (n : N) (acc : string) : string :=
  match d with
  | O => acc
  | S d' =>
      fixed_digits d' (n / 10)
        (String (ascii_of_N (48 + n mod 10)) acc)
  end.

Definition decimal (n : N) : string :=
  NilZero.string_of_uint (N.to_uint n).

(** [num / den] rounded to the nearest integer, ties to the even one:
    the conversion is correctly rounded. *)
Definition round_half_even (num den : Z) : Z :=
  let q := (num / den)%Z in
  match (2 * (num mod den) ?= den)%Z with
  | Lt => q
  | Gt => (q + 1)%Z
  | Eq => if Z.even q then q else (q + 1)%Z
  end.

(** [m * 2^e * 10^d] rounded to an integer. *)
Definition scaled (d : nat) (m : positive) (e : Z) : N :=
  Z.to_N
    (if (0 <=? e)%Z then (Zpos m * 2 ^ e * 10 ^ Z.of_nat d)%Z
     else round_half_even (Zpos m * 10 ^ Z.of_nat d) (2 ^ (- e))).

(** The digits of [q / 10^d]: integer part, and for [d > 0] a point and
    exactly [d] decimals. *)
Definition fixed_point (d : nat) (q : N) : string :=
  let unit := (10 ^ N.of_nat d)%N in
  decimal (q / unit)
  +:+ match d with
      | O => ""
      | S _ => String "." (fixed_digits d (q mod unit) "")
      end.

Definition format_f (d : nat) (x : float) : string :=
  match Prim2SF x with
  | S754_nan => "nan"
  | S754_infinity s => sign_text s +:+ "inf"
  | S754_zero s => sign_text s +:+ fixed_point d 0
  | S754_finite s m e => sign_text s +:+ fixed_point d (scaled d m e)
  end.

(** *** [abs(a - b) > 1e-9] *)

Definition epsilon : float := 1e-9%float.

Definition differs (a b : float) : bool :=
  PrimFloat.ltb epsilon (PrimFloat.abs (PrimFloat.sub a b)).

End Py.

(** ** Methods: state transformers that return or raise *)

Inductive exception : Type :=
| AttributeError
| KeyError
| TypeError
| ValueError
| OverflowError.

Inductive outcome (S A : Type) : Type :=
| Returned (a : A) (s : S)
| Raised (e : exception).

Arguments Returned {S A} a s.
Arguments Raised {S A} e.

Definition method (S A : Type) : Type := S -> outcome S A.

Definition ret {S A} (a : A) : method S A := fun s => Returned a s.

Definition bind {S A B} (m : method S A) (k : A -> method S B) : method S B :=
  fun s =>
    match m s with
    | Returned a s' => k a s'
    | Raised e => Raised e
    end.

Definition gets {S A} (f : S -> A) : method S A := fun s => Returned (f s) s.

Definition modify {S} (f : S -> S) : method S unit := fun s => Returned tt (f s).

(** A method of an attribute object, run on the object that holds it. *)
Definition zoom {S T A} (get : S -> T) (set : T -> S -> S) (m : method T A)
  : method S A :=
  fun s =>
    match m (get s) with
    | Returned a t => Returned a (set t s)
    | Raised e => Raised e
    end.

Declare Scope method_scope.
Delimit Scope method_scope with method.
Bind Scope method_scope with method.
Notation "x <- m ;; k" := (bind m (fun x => k))
  (at level 100, m at next level, right associativity) : method_scope.
Notation "m ;; k" := (bind m (fun _ => k))
  (at level 100, right associativity) : method_scope.
Local Open Scope method_scope.

(** ** Qt widgets: what the methods read and write *)

Inductive QVariant : Type :=
| QBool (b : bool)
| QString (s : string).

Record QLabel : Type := mkQLabel {
  text : string;
  property : gmap string QVariant
}.

Definition QLabel_new (t : string) : QLabel :=
  {| text := t; property := ∅ |}.

Definition setText (t : string) : method QLabel unit :=
  modify (fun lbl => {| text := t; property := property lbl |}).

Definition setProperty (name : string) (v : QVariant) : method QLabel unit :=
  modify (fun lbl => {| text := text lbl; property := <[name := v]> (property lbl) |}).

(** [lbl.style().unpolish(lbl); lbl.style().polish(lbl); lbl.update()]:
    the style sheet is applied again and a repaint is scheduled; neither
    the text nor a property changes. *)
Definition repolish : method QLabel unit := ret tt.

(** A key/value tile: the frame [_make_kv_card] builds, with the value
    label stored as the attribute [_value_label]. [None] is a frame without
    that attribute, the case [getattr(card, "_value_label", None)] covers. *)
Record KvCard : Type := mkKvCard {
  kv_key : string;
  _value_label : option QLabel
}.

(** ** [class DroneStatusCard] *)

Record DroneStatusCard : Type := mkDroneStatusCard {
  _name : string;
  status_lbl : QLabel;
  lat_card : KvCard;
  lon_card : KvCard;
  alt_card : KvCard;
  updated_card : KvCard;
  gps_lbl : QLabel
}.

Definition with_status_lbl (l : QLabel) (c : DroneStatusCard) : DroneStatusCard :=
  mkDroneStatusCard (_name c) l (lat_card c) (lon_card c) (alt_card c)
    (updated_card c) (gps_lbl c).

Definition with_lat_card (k : KvCard) (c : DroneStatusCard) : DroneStatusCard :=
  mkDroneStatusCard (_name c) (status_lbl c) k (lon_card c) (alt_card c)
    (updated_card c) (gps_lbl c).

Definition with_lon_card (k : KvCard) (c : DroneStatusCard) : DroneStatusCard :=
  mkDroneStatusCard (_name c) (status_lbl c) (lat_card c) k (alt_card c)
    (updated_card c) (gps_lbl c).

Definition with_alt_card (k : KvCard) (c : DroneStatusCard) : DroneStatusCard :=
  mkDroneStatusCard (_name c) (status_lbl c) (lat_card c) (lon_card c) k
    (updated_card c) (gps_lbl c).

Definition with_updated_card (k : KvCard) (c : DroneStatusCard) : DroneStatusCard :=
  mkDroneStatusCard (_name c) (status_lbl c) (lat_card c) (lon_card c)
    (alt_card c) k (gps_lbl c).

Definition with_gps_lbl (l : QLabel) (c : DroneStatusCard) : DroneStatusCard :=
  mkDroneStatusCard (_name c) (status_lbl c) (lat_card c) (lon_card c)
    (alt_card c) (updated_card c) l.

(** [_make_kv_card(key, value)] *)
Definition _make_kv_card (key value : string) : KvCard :=
  {| kv_key := key; _value_label := Some (QLabel_new value) |}.

(** [_set_kv_value(card, value)]: the text is set when the frame has its
    value label, and nothing happens otherwise. *)
Definition _set_kv_value (value : string) : method KvCard unit :=
  fun card =>
    match _value_label card with
    | Some lbl =>
        match setText value lbl with
        | Returned _ lbl' =>
            Returned tt {| kv_key := kv_key card; _value_label := Some lbl' |}
        | Raised e => Raised e
        end
    | None => Returned tt card
    end.

(** [x or "--"] for an optional text: [None] and the empty text are falsy. *)
Definition or_placeholder (t : option string) : string :=
  match t with
  | None | Some "" => "--"
  | Some s => s
  end.

(** [DroneStatusCard.__init__(name, status_text, latitude=..,
    longitude=.., altitude_m=.., updated_text=..)]. *)
Definition DroneStatusCard_init (name status_text : string)
    (latitude longitude altitude_m : option float)
    (updated_text : option string) : DroneStatusCard :=
  {| _name := name;
     status_lbl :=
       {| text := status_text; property := {[ "live" := QBool false ]} |};
     lat_card :=
       _make_kv_card "Latitude"
         match latitude with None => "--" | Some x => Py.format_f 6 x end;
     lon_card :=
       _make_kv_card "Longitude"
         match longitude with None => "--" | Some x => Py.format_f 6 x end;
     alt_card :=
       _make_kv_card "Altitude"
         match altitude_m with
         | None => "--"
         | Some x => Py.format_f 1 x +:+ " m"
         end;
     updated_card := _make_kv_card "Updated" (or_placeholder updated_text);
     gps_lbl :=
       {| text := "GPS: --"; property := {[ "gps" := QString "unknown" ]} |}
  |}.

(** [set_position(latitude=.., longitude=.., altitude_m=.., updated_text=..)] *)
Definition set_position (latitude longitude altitude_m : option float)
    (updated_text : option string) : method DroneStatusCard unit :=
  match latitude with
  | Some x => zoom lat_card with_lat_card (_set_kv_value (Py.format_f 6 x))
  | None => ret tt
  end ;;
  match longitude with
  | Some x => zoom lon_card with_lon_card (_set_kv_value (Py.format_f 6 x))
  | None => ret tt
  end ;;
  match altitude_m with
  | Some x =>
      zoom alt_card with_alt_card (_set_kv_value (Py.format_f 1 x +:+ " m"))
  | None => ret tt
  end ;;
  match updated_text with
  | Some t => zoom updated_card with_updated_card (_set_kv_value t)
  | None => ret tt
  end.

(** [set_gps_active(active)], [active] a [bool] or [None]. *)
Definition set_gps_active (active : option bool) : method DroneStatusCard unit :=
  zoom gps_lbl with_gps_lbl
    (match active with
     | None =>
         setText "GPS: --" ;;
         setProperty "gps" (QString "unknown")
     | Some a =>
         setText (if a then "GPS: Active" else "GPS: Inactive") ;;
         setProperty "gps" (QString (if a then "active" else "inactive"))
     end ;;
     repolish).

(** [set_live(live)] *)
Definition set_live (live : bool) : method DroneStatusCard unit :=
  zoom status_lbl with_status_lbl
    (setText (if live then "Status: Live" else "Status: Offline") ;;
     setProperty "live" (QBool live) ;;
     repolish).

(** ** [class MissionPlannerWindow] *)

Record MissionPlannerWindow : Type := mkMissionPlannerWindow {
  global_status : QLabel;
  freyja_card : DroneStatusCard;
  cleo_card : DroneStatusCard;
  _last_positions : gmap string (float * float * float);
  _gps_active : gmap string bool
}.

Definition with_global_status (l : QLabel) (w : MissionPlannerWindow)
  : MissionPlannerWindow :=
  mkMissionPlannerWindow l (freyja_card w) (cleo_card w)
    (_last_positions w) (_gps_active w).

Definition with_freyja_card (c : DroneStatusCard) (w : MissionPlannerWindow)
  : MissionPlannerWindow :=
  mkMissionPlannerWindow (global_status w) c (cleo_card w)
    (_last_positions w) (_gps_active w).

Definition with_cleo_card (c : DroneStatusCard) (w : MissionPlannerWindow)
  : MissionPlannerWindow :=
  mkMissionPlannerWindow (global_status w) (freyja_card w) c
    (_last_positions w) (_gps_active w).

Definition with_last_positions (m : gmap string (float * float * float))
    (w : MissionPlannerWindow) : MissionPlannerWindow :=
  mkMissionPlannerWindow (global_status w) (freyja_card w) (cleo_card w)
    m (_gps_active w).

Definition with_gps_active (m : gmap string bool) (w : MissionPlannerWindow)
  : MissionPlannerWindow :=
  mkMissionPlannerWindow (global_status w) (freyja_card w) (cleo_card w)
    (_last_positions w) m.

(** [_build_header]: the attribute it stores is [global_status]. *)
Definition _build_header : QLabel :=
  {| text := "Status: Offline"; property := {[ "live" := QBool false ]} |}.

(** [_build_body]: the attributes it stores are the two cards. *)
Definition _build_body : DroneStatusCard * DroneStatusCard :=
  (DroneStatusCard_init "Freyja" "Status: Offline" None None None None,
   DroneStatusCard_init "Cleo" "Status: Offline" None None None None).

(** [MissionPlannerWindow.__init__()] *)
Definition MissionPlannerWindow_init : MissionPlannerWindow :=
  {| global_status := _build_header;
     freyja_card := fst _build_body;
     cleo_card := snd _build_body;
     _last_positions := ∅;
     _gps_active := {[ "freyja" := false; "cleo" := false ]} |}.

(** The card a local variable [card] refers to: the object itself, not a
    copy of it. *)
Inductive card_ref : Type :=
| self_freyja_card
| self_cleo_card.

Definition on_card {A} (r : card_ref) (m : method DroneStatusCard A)
  : method MissionPlannerWindow A :=
  match r with
  | self_freyja_card => zoom freyja_card with_freyja_card m
  | self_cleo_card => zoom cleo_card with_cleo_card m
  end.

(** [set_global_live(live)] *)
Definition set_global_live (live : bool) : method MissionPlannerWindow unit :=
  zoom global_status with_global_status
    (setText (if live then "Status: Live" else "Status: Offline") ;;
     setProperty "live" (QBool live) ;;
     repolish).

(** [set_drone_live(drone_name, live)] *)
Definition set_drone_live (drone_name : string) (live : bool)
  : method MissionPlannerWindow unit :=
  let name := Py.lower (Py.strip drone_name) in
  if String.eqb name "freyja" then on_card self_freyja_card (set_live live)
  else if String.eqb name "cleo" then on_card self_cleo_card (set_live live)
  else ret tt.

(** [prev is None or any(abs(a - b) > 1e-9 for a, b in zip(prev, curr))] *)
Definition moved_signal (prev : option (float * float * float))
    (curr : float * float * float) : bool :=
  match prev with
  | None => true
  | Some p =>
      let tuple := fun t : float * float * float =>
        let '(x, y, z) := t in [x; y; z] in
      existsb (fun ab : float * float => Py.differs (fst ab) (snd ab))
        (combine (tuple p) (tuple curr))
  end.

(** [update_drone_position(drone_name, latitude=.., longitude=..,
    altitude_m=.., updated_text=..)] *)
Definition update_drone_position (drone_name : string)
    (latitude longitude altitude_m : float) (updated_text : option string)
  : method MissionPlannerWindow unit :=
  let name := Py.lower (Py.strip drone_name) in
  match (if String.eqb name "freyja" then Some self_freyja_card
         else if String.eqb name "cleo" then Some self_cleo_card
         else None) with
  | None => ret tt
  | Some card =>
      gps <- gets (fun self => default false (_gps_active self !! name)) ;;
      (if gps : bool
       then on_card card
              (set_position (Some latitude) (Some longitude) (Some altitude_m)
                 updated_text)
       else ret tt) ;;
      prev <- gets (fun self => _last_positions self !! name) ;;
      let curr := (latitude, longitude, altitude_m) in
      let moved := moved_signal prev curr in
      let _ := moved in
      modify (fun self =>
        with_last_positions (<[name := curr]> (_last_positions self)) self)
  end.

(** [set_drone_gps_active(drone_name, active)] *)
Definition set_drone_gps_active (drone_name : string) (active : bool)
  : method MissionPlannerWindow unit :=
  let name := Py.lower (Py.strip drone_name) in
  if negb (existsb (String.eqb name) ["freyja"; "cleo"]) then ret tt
  else
    modify (fun self =>
      with_gps_active (<[name := active]> (_gps_active self)) self) ;;
    if String.eqb name "freyja"
    then on_card self_freyja_card (set_gps_active (Some active))
    else if String.eqb name "cleo"
    then on_card self_cleo_card (set_gps_active (Some active))
    else ret tt.

(** The update methods a caller drives the window through, and a run of
    calls from a state. *)
Inductive call : Type :=
| SetGlobalLive (live : bool)
| SetDroneLive (drone_name : string) (live : bool)
| SetDroneGpsActive (drone_name : string) (active : bool)
| UpdateDronePosition (drone_name : string)
    (latitude longitude altitude_m : float) (updated_text : option string).

Definition perform (c : call) : method MissionPlannerWindow unit :=
  match c with
  | SetGlobalLive live => set_global_live live
  | SetDroneLive n live => set_drone_live n live
  | SetDroneGpsActive n active => set_drone_gps_active n active
  | UpdateDronePosition n lat lon alt t => update_drone_position n lat lon alt t
  end.

Fixpoint run (cs : list call) : method MissionPlannerWindow unit :=
  match cs with
  | [] => ret tt
  | c :: cs' => perform c ;; run cs'
  end.

(** ** Observations the properties are stated with *)

(** The closed set of drones, the key each has in the window's dicts and
    the card that shows it. *)
Inductive drone : Type :=
| Freyja
| Cleo.

#[global] Instance drone_eq_dec : EqDecision drone.
Proof. solve_decision. Defined.

Definition drone_key (d : drone) : string :=
  match d with
  | Freyja => "freyja"
  | Cleo => "cleo"
  end.

Definition card_of (d : drone) (w : MissionPlannerWindow) : DroneStatusCard :=
  match d with
  | Freyja => freyja_card w
  | Cleo => cleo_card w
  end.

(** [drone_name.strip().lower()], as every method starts. *)
Definition normalize (drone_name : string) : string :=
  Py.lower (Py.strip drone_name).

(** [self._gps_active.get(key, False)] *)
Definition gps_flag (d : drone) (w : MissionPlannerWindow) : bool :=
  default false (_gps_active w !! drone_key d).

(** The text a tile shows, if the tile has its value label. *)
Definition kv_text (k : KvCard) : option string :=
  text <$> _value_label k.

(** The Latitude, Longitude, Altitude and Updated tiles of a card. *)
Definition tiles (c : DroneStatusCard)
  : option string * option string * option string * option string :=
  (kv_text (lat_card c), kv_text (lon_card c), kv_text (alt_card c),
   kv_text (updated_card c)).

(** Position updates only, each with its own name and values. *)
Definition position_updates
    (us : list (string * (float * float * float) * option string))
  : list call :=
  map (fun u => let '(n, (lat, lon, alt), t) := u in
                UpdateDronePosition n lat lon alt t) us.

(** ** The cards and the window after a method, as values *)

(** The tile after [_set_kv_value]. *)
Definition kv_put (value : string) (k : KvCard) : KvCard :=
  match _value_label k with
  | Some lbl =>
      {| kv_key := kv_key k;
         _value_label := Some {| text := value; property := property lbl |} |}
  | None => k
  end.

Definition kv_put_opt (value : option string) (k : KvCard) : KvCard :=
  match value with
  | Some v => kv_put v k
  | None => k
  end.

(** The card after [set_position]. *)
Definition positioned (la lo al : option float) (ut : option string)
    (c : DroneStatusCard) : DroneStatusCard :=
  mkDroneStatusCard (_name c) (status_lbl c)
    (kv_put_opt (Py.format_f 6 <$> la) (lat_card c))
    (kv_put_opt (Py.format_f 6 <$> lo) (lon_card c))
    (kv_put_opt ((fun x => Py.format_f 1 x +:+ " m") <$> al) (alt_card c))
    (kv_put_opt ut (updated_card c))
    (gps_lbl c).

Definition with_card (d : drone) (c : DroneStatusCard)
    (w : MissionPlannerWindow) : MissionPlannerWindow :=
  match d with
  | Freyja => with_freyja_card c w
  | Cleo => with_cleo_card c w
  end.

(** ** Calls and the GPS state of a drone *)

(** A call that is not a GPS update for drone [d]. *)
Definition leaves_gps (d : drone) (c : call) : Prop :=
  forall n active, c = SetDroneGpsActive n active -> normalize n <> drone_key d.

(** A call that does not switch the GPS of drone [d] on. *)
Definition keeps_gps_off (d : drone) (c : call) : Prop :=
  forall n, c = SetDroneGpsActive n true -> normalize n <> drone_key d.

(** The window's flag for drone [d] is set, and the card's label says the
    same. *)
Definition gps_agree (d : drone) (w : MissionPlannerWindow) : Prop :=
  exists flag,
    _gps_active w !! drone_key d = Some flag /\
    text (gps_lbl (card_of d w))
    = (if flag : bool then "GPS: Active" else "GPS: Inactive").

(** ** The movement signal, and the window without it *)

(** The signal in the words of the specification: there is no cached
    position, or some coordinate of the passed triple differs from the
    cached one by more than 1e-9: the absolute value of the binary64
    difference is greater than the binary64 number written 1e-9. *)
Definition moved_by_spec (prev : option (float * float * float))
    (curr : float * float * float) : Prop :=
  prev = None \/
  exists p,
    prev = Some p /\
    ((1e-9 <? abs (p.1.1 - curr.1.1))%float = true \/
     (1e-9 <? abs (p.1.2 - curr.1.2))%float = true \/
     (1e-9 <? abs (p.2 - curr.2))%float = true).

(** The same comparison on the values the floats stand for, with the
    subtraction rounded as IEEE 754 rounds it: the threshold is
    4835703278458517 * 2^-82, the binary64 number nearest to 10^-9. *)
Definition threshold : spec_float :=
  S754_finite false 4835703278458517 (-82).

Definition exceeds_threshold (a b : float) : bool :=
  SFltb threshold (SFabs (SF64sub (Prim2SF a) (Prim2SF b))).

(** [update_drone_position] with the two lines that compute and drop
    [moved] taken out. *)
Definition update_drone_position_without_moved (drone_name : string)
    (latitude longitude altitude_m : float) (updated_text : option string)
  : method MissionPlannerWindow unit :=
  let name := Py.lower (Py.strip drone_name) in
  match (if String.eqb name "freyja" then Some self_freyja_card
         else if String.eqb name "cleo" then Some self_cleo_card
         else None) with
  | None => ret tt
  | Some card =>
      gps <- gets (fun self => default false (_gps_active self !! name)) ;;
      (if gps : bool
       then on_card card
              (set_position (Some latitude) (Some longitude) (Some altitude_m)
                 updated_text)
       else ret tt) ;;
      let curr := (latitude, longitude, altitude_m) in
      modify (fun self =>
        with_last_positions (<[name := curr]> (_last_positions self)) self)
  end.

Definition perform_without_moved (c : call)
  : method MissionPlannerWindow unit :=
  match c with
  | UpdateDronePosition n lat lon alt t =>
      update_drone_position_without_moved n lat lon alt t
  | _ => perform c
  end.

Fixpoint run_without_moved (cs : list call)
  : method MissionPlannerWindow unit :=
  match cs with
  | [] => ret tt
  | c :: cs' => perform_without_moved c ;; run_without_moved cs'
  end.

(** ** The text of a formatted number *)

Definition is_digit (c : ascii) : bool :=
  let n := N_of_ascii c in ((48 <=? n) && (n <=? 57))%N.

Fixpoint digits_only (s : string) : bool :=
  match s with
  | EmptyString => true
  | String c s' => is_digit c && digits_only s'
  end.

(** A sign, the decimal numeral of a natural number, a point and exactly
    [d] decimal digits. *)
Definition fixed_point_text (d : nat) (s : string) : Prop :=
  exists (negative : bool) (n : N) (frac : string),
    s = Py.sign_text negative +:+ Py.decimal n +:+ "." +:+ frac /\
    String.length frac = d /\
    digits_only frac = true.

(** ** Calls of the card methods *)

Inductive card_call : Type :=
| SetPosition (latitude longitude altitude_m : option float)
    (updated_text : option string)
| SetGpsActive (active : option bool)
| SetLive (live : bool).

Definition card_perform (c : card_call) : method DroneStatusCard unit :=
  match c with
  | SetPosition la lo al ut => set_position la lo al ut
  | SetGpsActive active => set_gps_active active
  | SetLive live => set_live live
  end.

Fixpoint card_run (cs : list card_call) : method DroneStatusCard unit :=
  match cs with
  | [] => ret tt
  | c :: cs' => card_perform c ;; card_run cs'
  end.

(** ** Merging arguments, erasing texts *)

(** [new] where it is given, [old] where it is not. *)
Definition or_else {A} (new old : option A) : option A :=
  match new with
  | Some x => Some x
  | None => old
  end.

(** A tile with the text of its value label erased. *)
Definition kv_blank (k : KvCard) : KvCard := kv_put "" k.

(** A card with the texts of its four tiles erased: what is left is
    everything [set_position] must not touch. *)
Definition blank_tiles (c : DroneStatusCard) : DroneStatusCard :=
  mkDroneStatusCard (_name c) (status_lbl c)
    (kv_blank (lat_card c)) (kv_blank (lon_card c))
    (kv_blank (alt_card c)) (kv_blank (updated_card c))
    (gps_lbl c).

(** ** The window after a call, and states a run can reach *)

(** The drone a name stands for, as every method decides it. *)
Definition resolve (drone_name : string) : option drone :=
  if String.eqb (normalize drone_name) "freyja" then Some Freyja
  else if String.eqb (normalize drone_name) "cleo" then Some Cleo
  else None.

(** The drone a call is for; [set_global_live] is for none. *)
Definition target (c : call) : option drone :=
  match c with
  | SetGlobalLive _ => None
  | SetDroneLive n _ => resolve n
  | SetDroneGpsActive n _ => resolve n
  | UpdateDronePosition n _ _ _ _ => resolve n
  end.

Definition other (d : drone) : drone :=
  match d with
  | Freyja => Cleo
  | Cleo => Freyja
  end.

(** The status label after [set_live] or [set_global_live]. *)
Definition live_label (live : bool) (l : QLabel) : QLabel :=
  {| text := if live then "Status: Live" else "Status: Offline";
     property := <["live" := QBool live]> (property l) |}.

(** The GPS label after [set_gps_active] with a [bool]. *)
Definition gps_label (active : bool) (l : QLabel) : QLabel :=
  {| text := if active then "GPS: Active" else "GPS: Inactive";
     property :=
       <["gps" := QString (if active then "active" else "inactive")]>
         (property l) |}.

(** The window a call returns. *)
Definition after (c : call) (w : MissionPlannerWindow) : MissionPlannerWindow :=
  match c with
  | SetGlobalLive live =>
      with_global_status (live_label live (global_status w)) w
  | SetDroneLive n live =>
      match resolve n with
      | Some d =>
          with_card d
            (with_status_lbl (live_label live (status_lbl (card_of d w)))
               (card_of d w))
            w
      | None => w
      end
  | SetDroneGpsActive n active =>
      match resolve n with
      | Some d =>
          with_card d
            (with_gps_lbl (gps_label active (gps_lbl (card_of d w)))
               (card_of d w))
            (with_gps_active (<[drone_key d := active]> (_gps_active w)) w)
      | None => w
      end
  | UpdateDronePosition n lat lon alt t =>
      match resolve n with
      | Some d =>
          with_last_positions
            (<[drone_key d := (lat, lon, alt)]> (_last_positions w))
            (if gps_flag d w
             then with_card d
                    (positioned (Some lat) (Some lon) (Some alt) t
                       (card_of d w)) w
             else w)
      | None => w
      end
  end.

(** The keys the window's dicts may hold. *)
Definition drone_keys : gset string := {[ "freyja"; "cleo" ]}.

(** A status label whose text and "live" property say the same. *)
Definition status_paired (l : QLabel) : Prop :=
  exists live : bool,
    text l = (if live then "Status: Live" else "Status: Offline") /\
    property l !! "live" = Some (QBool live).

(** The argument of the last [set_drone_gps_active] of a run whose name
    stands for drone [d]; [prev] if the run has none. *)
Fixpoint last_gps (d : drone) (cs : list call) (prev : option bool)
  : option bool :=
  match cs with
  | [] => prev
  | c :: cs' =>
      last_gps d cs'
        match c with
        | SetDroneGpsActive n active =>
            if String.eqb (normalize n) (drone_key d) then Some active
            else prev
        | _ => prev
        end
  end.

(** The GPS flag of a drone, the text and the "gps" property of its label
    for a last argument [o] of [set_drone_gps_active]: off and unknown as
    constructed when there was no call, the argument in all three
    otherwise. *)
Definition gps_shows (d : drone) (w : MissionPlannerWindow)
    (o : option bool) : Prop :=
  match o with
  | None =>
      _gps_active w !! drone_key d = Some false /\
      text (gps_lbl (card_of d w)) = "GPS: --" /\
      property (gps_lbl (card_of d w)) !! "gps" = Some (QString "unknown")
  | Some active =>
      _gps_active w !! drone_key d = Some active /\
      text (gps_lbl (card_of d w))
      = (if active then "GPS: Active" else "GPS: Inactive") /\
      property (gps_lbl (card_of d w)) !! "gps"
      = Some (QString (if active then "active" else "inactive"))
  end.

(** A card that shows four tiles. *)
Definition shows_tiles (c : DroneStatusCard) : Prop :=
  exists t_lat t_lon t_alt t_upd,
    tiles c = (Some t_lat, Some t_lon, Some t_alt, Some t_upd).

(** The position the last update for drone [d] in a run carries, [prev]
    if the run has none. *)
Fixpoint last_update (d : drone) (cs : list call)
    (prev : option (float * float * float))
  : option (float * float * float) :=
  match cs with
  | [] => prev
  | c :: cs' =>
      last_update d cs'
        match c with
        | UpdateDronePosition n lat lon alt _ =>
            if String.eqb (normalize n) (drone_key d)
            then Some (lat, lon, alt) else prev
        | _ => prev
        end
  end.

(** ** Texts made of whitespace *)

Fixpoint all_space (s : string) : bool :=
  match s with
  | EmptyString => true
  | String c s' => Py.isspace c && all_space s'
  end.

(** ** Images: [_safe_pixmap] and the labels that show its result *)

(** What a label shows: a picture set by [setPixmap] or a text set by
    [setText]. *)
Inductive label_content (QPixmap : Type) : Type :=
| ShowsPixmap (pix : QPixmap)
| ShowsText (t : string).

Arguments ShowsPixmap {QPixmap} pix.
Arguments ShowsText {QPixmap} t.

Section Assets.

(** The file system and the toolkit, as far as the code asks them: whether
    a path exists, the pixmap [QPixmap(str(path))] loads, whether a pixmap
    is null, and [scaledToHeight]. A path is the text [str(path)]. *)
Variable QPixmap : Type.
Variable path_exists : string -> bool.
Variable QPixmap_load : string -> QPixmap.
Variable isNull : QPixmap -> bool.
Variable scaledToHeight : Z -> QPixmap -> QPixmap.
Variable ASSETS_DIR : string.

(** [ASSETS_DIR / name] *)
Definition asset (name : string) : string := ASSETS_DIR +:+ "/" +:+ name.

(** [_safe_pixmap(path, height=..)] *)
Definition _safe_pixmap (path : string) (height : option Z) : option QPixmap :=
  if negb (path_exists path) then None
  else
    let pix := QPixmap_load path in
    if isNull pix then None
    else
      match height with
      | Some h => Some (scaledToHeight h pix)
      | None => Some pix
      end.

(** The image label of [DroneStatusCard.__init__]: lines 62 to 71. *)
Definition card_image (image_path : option string) : label_content QPixmap :=
  let pix :=
    match image_path with
    | Some path => _safe_pixmap path (Some 78%Z)
    | None => None
    end in
  match pix with
  | Some p => ShowsPixmap p
  | None => ShowsText "[drone]"
  end.

(** [freyja_img] and [cleo_img] of [_build_body]. *)
Definition freyja_img : string :=
  if path_exists (asset "Freyja.png") then asset "Freyja.png"
  else asset "drone.png".

Definition cleo_img : string :=
  if path_exists (asset "Cleo.png") then asset "Cleo.png"
  else asset "drone.png".

(** The file with a drone's own picture, and the image path
    [_build_body] passes to the drone's card. *)
Definition own_picture (d : drone) : string :=
  match d with
  | Freyja => asset "Freyja.png"
  | Cleo => asset "Cleo.png"
  end.

Definition image_path_of (d : drone) : string :=
  match d with
  | Freyja => freyja_img
  | Cleo => cleo_img
  end.

(** The text the logo label falls back to: two lines. *)
Definition logo_text : string := "PROJECT" +:+ String "010"%char "MANAS".

(** The logo label of [_build_header]; [a or b] is [a] unless [a] is
    [None], a pixmap object being truthy. *)
Definition logo : label_content QPixmap :=
  let logo_pix :=
    match _safe_pixmap (asset "manas-full-white.png") (Some 50%Z) with
    | Some p => Some p
    | None => _safe_pixmap (asset "logo.png") (Some 50%Z)
    end in
  match logo_pix with
  | Some p => ShowsPixmap p
  | None => ShowsText logo_text
  end.

(** A file that exists and loads as a pixmap that is not null. *)
Definition loads (path : string) : bool :=
  path_exists path && negb (isNull (QPixmap_load path)).

End Assets.

(** ** Numbers as a caller may pass them *)

(** Where the code declares a [float] a caller may pass an [int] as well;
    the code then meets it in [f"{v:.6f}"] and in [float(v)]. *)
Inductive number : Type :=
| Float (x : float)
| Int (n : Z).

(** The binary64 number nearest to an integer, ties to even; beyond the
    largest one it is an infinity. *)
Definition float_of_int (n : Z) : spec_float :=
  binary_normalize prec emax n 0%Z false.

(** An [int] too large to convert to [float]. *)
Definition too_large (v : number) : bool :=
  match v with
  | Float _ => false
  | Int n =>
      match float_of_int n with
      | S754_infinity _ => true
      | _ => false
      end
  end.

(** The float a number stands for when it is not too large. *)
Definition float_value (v : number) : float :=
  match v with
  | Float x => x
  | Int n => SF2Prim (float_of_int n)
  end.

(** [float(v)]: a float is returned as it is, an int is rounded, and an
    int too large raises [OverflowError]. *)
Definition to_float {S} (v : number) : method S float :=
  match v with
  | Float x => ret x
  | Int n =>
      match float_of_int n with
      | S754_infinity _ => fun _ => Raised OverflowError
      | x => ret (SF2Prim x)
      end
  end.

(** [f"{v:.{d}f}"]: an int is converted as by [float(v)] and then
    formatted as a float. *)
Definition format_number {S} (d : nat) (v : number) : method S string :=
  x <- to_float v ;; ret (Py.format_f d x).

Definition any_too_large (vs : list (option number)) : bool :=
  existsb (from_option too_large false) vs.

(** The two methods that take numbers, with the numbers as passed. *)
Module Numeric.

(** [set_position(latitude=.., longitude=.., altitude_m=.., updated_text=..)] *)
Definition set_position (latitude longitude altitude_m : option number)
    (updated_text : option string) : method DroneStatusCard unit :=
  match latitude with
  | Some v =>
      t <- format_number 6 v ;;
      zoom lat_card with_lat_card (_set_kv_value t)
  | None => ret tt
  end ;;
  match longitude with
  | Some v =>
      t <- format_number 6 v ;;
      zoom lon_card with_lon_card (_set_kv_value t)
  | None => ret tt
  end ;;
  match altitude_m with
  | Some v =>
      t <- format_number 1 v ;;
      zoom alt_card with_alt_card (_set_kv_value (t +:+ " m"))
  | None => ret tt
  end ;;
  match updated_text with
  | Some t => zoom updated_card with_updated_card (_set_kv_value t)
  | None => ret tt
  end.

(** [update_drone_position(drone_name, latitude=.., longitude=..,
    altitude_m=.., updated_text=..)] *)
Definition update_drone_position (drone_name : string)
    (latitude longitude altitude_m : number) (updated_text : option string)
  : method MissionPlannerWindow unit :=
  let name := Py.lower (Py.strip drone_name) in
  match (if String.eqb name "freyja" then Some self_freyja_card
         else if String.eqb name "cleo" then Some self_cleo_card
         else None) with
  | None => ret tt
  | Some card =>
      gps <- gets (fun self => default false (_gps_active self !! name)) ;;
      (if gps : bool
       then on_card card
              (set_position (Some latitude) (Some longitude) (Some altitude_m)
                 updated_text)
       else ret tt) ;;
      prev <- gets (fun self => _last_positions self !! name) ;;
      lat <- to_float latitude ;;
      lon <- to_float longitude ;;
      alt <- to_float altitude_m ;;
      let curr := (lat, lon, alt) in
      let moved := moved_signal prev curr in
      let _ := moved in
      modify (fun self =>
        with_last_positions (<[name := curr]> (_last_positions self)) self)
  end.

End Numeric.

(** * Properties *)

(** ** The scenario of the specification *)

Example scenario_gps_inactive :
  exists w,
    update_drone_position "Freyja" 12.9716 77.5946 45.333 None
      MissionPlannerWindow_init = Returned tt w /\
    kv_text (lat_card (freyja_card w)) = Some "--".
Proof. eexists. split; [vm_compute; reflexivity | reflexivity]. Qed.

Example scenario_gps_active :
  exists w,
    (set_drone_gps_active "freyja" true ;;
     update_drone_position "freyja" 12.9716 77.5946 45.333 None)
      MissionPlannerWindow_init = Returned tt w /\
    tiles (freyja_card w)
    = (Some "12.971600", Some "77.594600", Some "45.3 m", Some "--").
Proof. eexists. split; [vm_compute; reflexivity | reflexivity]. Qed.

(** ** Laws of the method combinators *)

Section MethodLaws.
Context {S T A B : Type}.

Lemma bind_returned (m : method S A) (k : A -> method S B) s a s' :
  m s = Returned a s' -> bind m k s = k a s'.
Proof. intros H. unfold bind. rewrite H. reflexivity. Qed.

Lemma zoom_returned (get : S -> T) (set : T -> S -> S) (m : method T A) s a t :
  m (get s) = Returned a t -> zoom get set m s = Returned a (set t s).
Proof. intros H. unfold zoom. rewrite H. reflexivity. Qed.

End MethodLaws.

(** ** What the card methods do *)

Lemma _set_kv_value_returns value k :
  _set_kv_value value k = Returned tt (kv_put value k).
Proof.
  destruct k as [key [lbl|]]; reflexivity.
Qed.

Lemma kv_text_put value k :
  kv_text (kv_put value k) = (fun _ => value) <$> kv_text k.
Proof. destruct k as [key [lbl|]]; reflexivity. Qed.

Lemma kv_text_put_opt value k :
  kv_text (kv_put_opt value k)
  = match value with
    | Some v => (fun _ => v) <$> kv_text k
    | None => kv_text k
    end.
Proof. destruct value; [apply kv_text_put | reflexivity]. Qed.

Lemma set_position_returns la lo al ut c :
  set_position la lo al ut c = Returned tt (positioned la lo al ut c).
Proof.
  unfold set_position, positioned.
  destruct c as [n st la0 lo0 al0 up0 g].
  destruct la, lo, al, ut; cbn;
    unfold bind, zoom, ret; cbn;
    rewrite ?_set_kv_value_returns; reflexivity.
Qed.

Lemma set_live_returns live c :
  set_live live c
  = Returned tt
      (with_status_lbl
         {| text := if live then "Status: Live" else "Status: Offline";
            property := <["live" := QBool live]> (property (status_lbl c)) |}
         c).
Proof. reflexivity. Qed.

Lemma set_gps_active_returns active c :
  set_gps_active active c
  = Returned tt
      (with_gps_lbl
         match active with
         | None =>
             {| text := "GPS: --";
                property :=
                  <["gps" := QString "unknown"]> (property (gps_lbl c)) |}
         | Some a =>
             {| text := if a then "GPS: Active" else "GPS: Inactive";
                property :=
                  <["gps" := QString (if a then "active" else "inactive")]>
                    (property (gps_lbl c)) |}
         end
         c).
Proof. destruct active; reflexivity. Qed.

(** ** What the window methods do *)

Lemma drone_key_inj d d' : drone_key d = drone_key d' -> d = d'.
Proof. destruct d, d'; simpl; congruence. Qed.

Lemma name_cases (name : string) :
  (exists d, name = drone_key d) \/ (name <> "freyja" /\ name <> "cleo").
Proof.
  destruct (String.eqb_spec name "freyja") as [->|Hf];
    [left; exists Freyja; reflexivity|].
  destruct (String.eqb_spec name "cleo") as [->|Hc];
    [left; exists Cleo; reflexivity|].
  right. split; assumption.
Qed.

Ltac known_name H :=
  cbv zeta; unfold normalize in H;
  lazymatch type of H with
  | _ = drone_key ?d => rewrite H; destruct d
  end;
  cbn [drone_key existsb];
  change (String.eqb "freyja" "freyja") with true;
  change (String.eqb "freyja" "cleo") with false;
  change (String.eqb "cleo" "freyja") with false;
  change (String.eqb "cleo" "cleo") with true;
  cbn [negb orb].

Ltac unknown_name Hf Hc :=
  cbv zeta; unfold normalize in Hf, Hc;
  apply String.eqb_neq in Hf; apply String.eqb_neq in Hc;
  cbn [existsb]; rewrite ?Hf, ?Hc.

Lemma set_drone_live_known d n live w :
  normalize n = drone_key d ->
  set_drone_live n live w
  = Returned tt
      (with_card d
         (with_status_lbl
            {| text := if live then "Status: Live" else "Status: Offline";
               property :=
                 <["live" := QBool live]> (property (status_lbl (card_of d w))) |}
            (card_of d w))
         w).
Proof. intros H. unfold set_drone_live. known_name H; reflexivity. Qed.

Lemma set_drone_gps_active_known d n active w :
  normalize n = drone_key d ->
  set_drone_gps_active n active w
  = Returned tt
      (with_card d
         (with_gps_lbl
            {| text := if active then "GPS: Active" else "GPS: Inactive";
               property :=
                 <["gps" := QString (if active then "active" else "inactive")]>
                   (property (gps_lbl (card_of d w))) |}
            (card_of d w))
         (with_gps_active (<[drone_key d := active]> (_gps_active w)) w)).
Proof. intros H. unfold set_drone_gps_active. known_name H; reflexivity. Qed.

Lemma update_drone_position_known d n lat lon alt ut w :
  normalize n = drone_key d ->
  update_drone_position n lat lon alt ut w
  = Returned tt
      (with_last_positions
         (<[drone_key d := (lat, lon, alt)]> (_last_positions w))
         (if gps_flag d w
          then with_card d
                 (positioned (Some lat) (Some lon) (Some alt) ut (card_of d w)) w
          else w)).
Proof.
  intros H. unfold update_drone_position. known_name H;
    unfold bind, gets, gps_flag; cbn [drone_key];
    destruct (default false (_gps_active w !! _)); cbn [on_card];
    unfold zoom, modify, ret; rewrite ?set_position_returns; reflexivity.
Qed.

Lemma set_drone_live_unknown n live w :
  normalize n <> "freyja" -> normalize n <> "cleo" ->
  set_drone_live n live w = Returned tt w.
Proof. intros Hf Hc. unfold set_drone_live. unknown_name Hf Hc. reflexivity. Qed.

Lemma set_drone_gps_active_unknown n active w :
  normalize n <> "freyja" -> normalize n <> "cleo" ->
  set_drone_gps_active n active w = Returned tt w.
Proof.
  intros Hf Hc. unfold set_drone_gps_active. unknown_name Hf Hc. reflexivity.
Qed.

Lemma update_drone_position_unknown n lat lon alt ut w :
  normalize n <> "freyja" -> normalize n <> "cleo" ->
  update_drone_position n lat lon alt ut w = Returned tt w.
Proof.
  intros Hf Hc. unfold update_drone_position. unknown_name Hf Hc. reflexivity.
Qed.

(** Reading a window after one of its parts was replaced. *)

Lemma card_of_with_card d d' c w :
  card_of d (with_card d' c w) = if decide (d = d') then c else card_of d w.
Proof. destruct d, d'; reflexivity. Qed.

Lemma card_of_with_card_same d c w : card_of d (with_card d c w) = c.
Proof. destruct d; reflexivity. Qed.

Lemma card_of_with_last_positions d m w :
  card_of d (with_last_positions m w) = card_of d w.
Proof. destruct d; reflexivity. Qed.

Lemma card_of_with_gps_active d m w :
  card_of d (with_gps_active m w) = card_of d w.
Proof. destruct d; reflexivity. Qed.

(** One position update, whatever the name: the call returns, the GPS flags
    and the global banner stay, and a card changes only if the name is its
    drone's and that drone's flag is set. *)
Lemma update_drone_position_effect n lat lon alt ut w :
  exists w',
    update_drone_position n lat lon alt ut w = Returned tt w' /\
    _gps_active w' = _gps_active w /\
    global_status w' = global_status w /\
    forall d,
      card_of d w'
      = if String.eqb (normalize n) (drone_key d) && gps_flag d w
        then positioned (Some lat) (Some lon) (Some alt) ut (card_of d w)
        else card_of d w.
Proof.
  destruct (name_cases (normalize n)) as [[d' Hd] | [Hf Hc]].
  - eexists. split; [apply (update_drone_position_known d'); exact Hd|].
    rewrite Hd. split; [destruct (gps_flag d' w), d'; reflexivity|].
    split; [destruct (gps_flag d' w), d'; reflexivity|].
    intros d. rewrite card_of_with_last_positions.
    destruct (String.eqb_spec (drone_key d') (drone_key d)) as [E|E].
    + apply drone_key_inj in E. subst d'. cbn [andb].
      destruct (gps_flag d w); [apply card_of_with_card_same | reflexivity].
    + cbn [andb]. destruct (gps_flag d' w); [|reflexivity].
      rewrite card_of_with_card. case_decide; [subst; congruence | reflexivity].
  - exists w. split; [apply update_drone_position_unknown; assumption|].
    do 2 (split; [reflexivity|]). intros d.
    destruct (String.eqb_spec (normalize n) (drone_key d)) as [E|E];
      [destruct d; simpl in E; congruence | reflexivity].
Qed.

(** Position updates only, any number of them, while a drone's flag is off:
    the run returns, that drone's card is the one it was and the flag is
    still off. *)
Lemma position_updates_gated d us :
  forall w,
    gps_flag d w = false ->
    exists w',
      run (position_updates us) w = Returned tt w' /\
      card_of d w' = card_of d w /\ gps_flag d w' = false.
Proof.
  induction us as [|[[n [[lat lon] alt]] t] us IH]; intros w Hoff.
  - exists w. split; [reflexivity | split; [reflexivity | assumption]].
  - destruct (update_drone_position_effect n lat lon alt t w)
      as (w1 & Hrun & Hgps & _ & Hcard).
    assert (Hoff1 : gps_flag d w1 = false)
      by (unfold gps_flag in *; rewrite Hgps; exact Hoff).
    destruct (IH w1 Hoff1) as (w2 & Hrun2 & Hcard2 & Hoff2).
    exists w2. split; [|split; [|exact Hoff2]].
    + cbn [position_updates map run perform].
      rewrite (bind_returned _ _ _ _ _ Hrun). exact Hrun2.
    + rewrite Hcard2, Hcard, Hoff, andb_false_r. reflexivity.
Qed.

(** ** Frames of the window methods *)

Lemma set_global_live_effect live w :
  exists w',
    set_global_live live w = Returned tt w' /\
    _gps_active w' = _gps_active w /\
    forall d, card_of d w' = card_of d w.
Proof.
  eexists. split; [reflexivity|]. split; [reflexivity|].
  intros []; reflexivity.
Qed.

Lemma set_drone_live_effect n live w :
  exists w',
    set_drone_live n live w = Returned tt w' /\
    _gps_active w' = _gps_active w /\
    forall d,
      gps_lbl (card_of d w') = gps_lbl (card_of d w) /\
      tiles (card_of d w') = tiles (card_of d w).
Proof.
  destruct (name_cases (normalize n)) as [[d' Hd] | [Hf Hc]].
  - eexists. split; [apply (set_drone_live_known d'), Hd|].
    split; [destruct d'; reflexivity|].
    intros d. rewrite card_of_with_card. case_decide; [subst|]; split; reflexivity.
  - exists w. split; [apply set_drone_live_unknown; assumption|].
    split; [reflexivity|]. intros d. split; reflexivity.
Qed.

(** [set_drone_gps_active]: the tiles of both cards stay; the flag and the
    GPS label of the named drone are set together, and those of the other
    drone stay. *)
Lemma set_drone_gps_active_effect n active w :
  exists w',
    set_drone_gps_active n active w = Returned tt w' /\
    forall d,
      tiles (card_of d w') = tiles (card_of d w) /\
      if String.eqb (normalize n) (drone_key d)
      then _gps_active w' !! drone_key d = Some active /\
           text (gps_lbl (card_of d w'))
           = (if active then "GPS: Active" else "GPS: Inactive")
      else _gps_active w' !! drone_key d = _gps_active w !! drone_key d /\
           gps_lbl (card_of d w') = gps_lbl (card_of d w).
Proof.
  destruct (name_cases (normalize n)) as [[d' Hd] | [Hf Hc]].
  - eexists. split; [apply (set_drone_gps_active_known d'), Hd|].
    intros d. rewrite Hd, card_of_with_card, card_of_with_gps_active.
    destruct (String.eqb_spec (drone_key d') (drone_key d)) as [E|E].
    + apply drone_key_inj in E. subst d'. rewrite decide_True by reflexivity.
      split; [reflexivity|]. split; [|reflexivity].
      destruct d; cbn; apply lookup_insert_eq.
    + rewrite decide_False by (intros ->; congruence).
      split; [reflexivity|]. split; [|reflexivity].
      destruct d'; cbn; apply lookup_insert_ne; exact E.
  - exists w. split; [apply set_drone_gps_active_unknown; assumption|].
    intros d. split; [reflexivity|].
    destruct (String.eqb_spec (normalize n) (drone_key d)) as [E|E];
      [destruct d; simpl in E; congruence | split; reflexivity].
Qed.

Lemma perform_leaves_gps d c w :
  leaves_gps d c ->
  exists w',
    perform c w = Returned tt w' /\
    _gps_active w' !! drone_key d = _gps_active w !! drone_key d /\
    gps_lbl (card_of d w') = gps_lbl (card_of d w).
Proof.
  intros Hc. destruct c as [live | n live | n active | n lat lon alt t];
    cbn [perform].
  - destruct (set_global_live_effect live w) as (w' & Hrun & Hgps & Hcard).
    exists w'. rewrite Hgps, Hcard. auto.
  - destruct (set_drone_live_effect n live w) as (w' & Hrun & Hgps & Hcard).
    exists w'. rewrite Hgps. split; [exact Hrun|]. split; [reflexivity|].
    apply Hcard.
  - destruct (set_drone_gps_active_effect n active w) as (w' & Hrun & Heff).
    exists w'. split; [exact Hrun|].
    destruct (Heff d) as [_ H].
    destruct (String.eqb_spec (normalize n) (drone_key d)) as [E|E];
      [exfalso; exact (Hc n active eq_refl E) | exact H].
  - destruct (update_drone_position_effect n lat lon alt t w)
      as (w' & Hrun & Hgps & _ & Hcard).
    exists w'. rewrite Hgps, Hcard. split; [exact Hrun|]. split; [reflexivity|].
    destruct (_ && _); reflexivity.
Qed.

Lemma run_leaves_gps d cs :
  Forall (leaves_gps d) cs ->
  forall w,
  exists w',
    run cs w = Returned tt w' /\
    _gps_active w' !! drone_key d = _gps_active w !! drone_key d /\
    gps_lbl (card_of d w') = gps_lbl (card_of d w).
Proof.
  induction 1 as [|c cs Hc _ IH]; intros w.
  - exists w. auto.
  - destruct (perform_leaves_gps d c w Hc) as (w1 & Hrun1 & Hflag1 & Hlbl1).
    destruct (IH w1) as (w2 & Hrun2 & Hflag2 & Hlbl2).
    exists w2. cbn [run]. rewrite (bind_returned _ _ _ _ _ Hrun1).
    split; [exact Hrun2|]. split; congruence.
Qed.

(** ** Steps of a run *)

(** One call: it returns, and a card's tiles differ afterwards only if the
    call is a position update for that card's drone made while the drone's
    GPS flag is set. *)
Lemma perform_tiles d c w :
  exists w',
    perform c w = Returned tt w' /\
    (tiles (card_of d w') <> tiles (card_of d w) ->
     exists n lat lon alt t,
       c = UpdateDronePosition n lat lon alt t /\
       normalize n = drone_key d /\ gps_flag d w = true).
Proof.
  destruct c as [live | n live | n active | n lat lon alt t]; cbn [perform].
  - destruct (set_global_live_effect live w) as (w' & Hrun & _ & Hcard).
    exists w'. split; [exact Hrun|]. rewrite Hcard. congruence.
  - destruct (set_drone_live_effect n live w) as (w' & Hrun & _ & Hcard).
    exists w'. split; [exact Hrun|]. intros Hne. destruct (Hcard d). congruence.
  - destruct (set_drone_gps_active_effect n active w) as (w' & Hrun & Heff).
    exists w'. split; [exact Hrun|]. intros Hne. destruct (Heff d). congruence.
  - destruct (update_drone_position_effect n lat lon alt t w)
      as (w' & Hrun & _ & _ & Hcard).
    exists w'. split; [exact Hrun|]. rewrite Hcard.
    destruct (String.eqb_spec (normalize n) (drone_key d)) as [E|E];
      [|cbn [andb]; congruence].
    destruct (gps_flag d w) eqn:Hflag; [|cbn [andb]; congruence].
    intros _. exists n, lat, lon, alt, t. auto.
Qed.

Lemma perform_while_gps_off d c w :
  keeps_gps_off d c ->
  gps_flag d w = false ->
  exists w',
    perform c w = Returned tt w' /\
    gps_flag d w' = false /\
    tiles (card_of d w') = tiles (card_of d w).
Proof.
  intros Hc Hoff.
  destruct (perform_tiles d c w) as (w' & Hrun & Htiles).
  exists w'. split; [exact Hrun|]. split.
  - destruct c as [live | n live | n active | n lat lon alt t]; cbn [perform] in Hrun.
    + destruct (set_global_live_effect live w) as (w1 & Hrun1 & Hgps & _).
      unfold gps_flag in *. congruence.
    + destruct (set_drone_live_effect n live w) as (w1 & Hrun1 & Hgps & _).
      unfold gps_flag in *. congruence.
    + destruct (set_drone_gps_active_effect n active w) as (w1 & Hrun1 & Heff).
      assert (w1 = w') by congruence. subst w1.
      destruct (Heff d) as [_ H]. unfold gps_flag in *.
      destruct (String.eqb_spec (normalize n) (drone_key d)) as [E|E].
      * destruct H as [-> _]. destruct active; [|reflexivity].
        exfalso. exact (Hc n eq_refl E).
      * destruct H as [-> _]. exact Hoff.
    + destruct (update_drone_position_effect n lat lon alt t w)
        as (w1 & Hrun1 & Hgps & _).
      unfold gps_flag in *. congruence.
  - destruct (decide (tiles (card_of d w') = tiles (card_of d w))) as [E|E];
      [exact E|].
    destruct (Htiles E) as (n & lat & lon & alt & t & _ & _ & Hon). congruence.
Qed.

Lemma run_while_gps_off d cs :
  Forall (keeps_gps_off d) cs ->
  forall w,
    gps_flag d w = false ->
    exists w',
      run cs w = Returned tt w' /\
      gps_flag d w' = false /\
      tiles (card_of d w') = tiles (card_of d w).
Proof.
  induction 1 as [|c cs Hc _ IH]; intros w Hoff.
  - exists w. auto.
  - destruct (perform_while_gps_off d c w Hc Hoff) as (w1 & Hrun1 & Hoff1 & Ht1).
    destruct (IH w1 Hoff1) as (w2 & Hrun2 & Hoff2 & Ht2).
    exists w2. cbn [run]. rewrite (bind_returned _ _ _ _ _ Hrun1).
    split; [exact Hrun2|]. split; congruence.
Qed.

(** ** The GPS flag and the GPS label *)

Lemma call_gps_cases d c :
  leaves_gps d c \/
  exists n active, c = SetDroneGpsActive n active /\ normalize n = drone_key d.
Proof.
  destruct c as [live | n live | n active | n lat lon alt t];
    try (left; intros n' a' E; discriminate E).
  destruct (String.eqb_spec (normalize n) (drone_key d)) as [E|E].
  - right. eauto.
  - left. intros n' a' H. inversion H; subst. exact E.
Qed.

Lemma set_drone_gps_active_agree d n active w :
  normalize n = drone_key d ->
  exists w', set_drone_gps_active n active w = Returned tt w' /\ gps_agree d w'.
Proof.
  intros Hn. destruct (set_drone_gps_active_effect n active w) as (w' & Hrun & Heff).
  exists w'. split; [exact Hrun|]. destruct (Heff d) as [_ H].
  rewrite Hn, String.eqb_refl in H. exists active. exact H.
Qed.

Lemma perform_gps_agree d c w :
  gps_agree d w ->
  exists w', perform c w = Returned tt w' /\ gps_agree d w'.
Proof.
  intros (flag & Hflag & Hlbl).
  destruct (call_gps_cases d c) as [Hc | (n & active & -> & Hn)].
  - destruct (perform_leaves_gps d c w Hc) as (w' & Hrun & Hf & Hl).
    exists w'. split; [exact Hrun|]. exists flag. split; congruence.
  - apply set_drone_gps_active_agree. exact Hn.
Qed.

Lemma run_gps_agree d cs :
  forall w,
    gps_agree d w -> exists w', run cs w = Returned tt w' /\ gps_agree d w'.
Proof.
  induction cs as [|c cs IH]; intros w Hw.
  - exists w. split; [reflexivity | exact Hw].
  - destruct (perform_gps_agree d c w Hw) as (w1 & Hrun1 & Hw1).
    destruct (IH w1 Hw1) as (w2 & Hrun2 & Hw2).
    exists w2. cbn [run]. rewrite (bind_returned _ _ _ _ _ Hrun1). auto.
Qed.

(** ** The movement signal is dead *)

Lemma moved_signal_spec prev curr :
  moved_signal prev curr = true <-> moved_by_spec prev curr.
Proof.
  unfold moved_signal, moved_by_spec.
  destruct prev as [[[a b] c]|], curr as [[x y] z];
    cbn [existsb combine fst snd].
  - rewrite orb_false_r, !orb_true_iff. unfold Py.differs, Py.epsilon. split.
    + intros H. right. exists (a, b, c). split; [reflexivity | exact H].
    + intros [H | (p & Hp & H)]; [discriminate|].
      injection Hp as <-. exact H.
  - split; [left; reflexivity | reflexivity].
Qed.

(** The comparison of the code is the IEEE 754 one against the binary64
    number nearest to 10^-9. *)
Lemma differs_exceeds_threshold a b : Py.differs a b = exceeds_threshold a b.
Proof.
  unfold Py.differs, exceeds_threshold.
  rewrite ltb_spec, abs_spec, sub_spec. reflexivity.
Qed.

(** What is cached for a drone has no part in what a position update for
    the drone leaves behind. *)
Lemma update_drone_position_forgets_cache d n lat lon alt t w m :
  normalize n = drone_key d ->
  (forall k, k <> drone_key d -> m !! k = _last_positions w !! k) ->
  update_drone_position n lat lon alt t (with_last_positions m w)
  = update_drone_position n lat lon alt t w.
Proof.
  intros Hn Hm. rewrite !(update_drone_position_known d) by exact Hn.
  f_equal. unfold gps_flag.
  cbn [_gps_active _last_positions with_last_positions].
  assert (E : <[drone_key d := (lat, lon, alt)]> m
              = <[drone_key d := (lat, lon, alt)]> (_last_positions w)).
  { apply map_eq. intros k. destruct (decide (k = drone_key d)) as [->|Hk].
    - rewrite !lookup_insert_eq. reflexivity.
    - rewrite !lookup_insert_ne by congruence. apply Hm, Hk. }
  rewrite E. destruct (default false _), d, w; reflexivity.
Qed.

Lemma update_drone_position_drops_moved n lat lon alt t w :
  update_drone_position n lat lon alt t w
  = update_drone_position_without_moved n lat lon alt t w.
Proof.
  unfold update_drone_position, update_drone_position_without_moved.
  cbv zeta.
  destruct (if String.eqb _ "freyja" then _ else _) as [card|]; [|reflexivity].
  unfold bind, gets.
  destruct (if default false _ then _ else _) as [[] w'|e]; reflexivity.
Qed.

(** ** Facts about the text of a formatted number *)

Lemma string_length_app (s1 s2 : string) :
  String.length (s1 +:+ s2) = (String.length s1 + String.length s2)%nat.
Proof. induction s1 as [|c s1 IH]; simpl; [reflexivity | f_equal; exact IH]. Qed.

Lemma fixed_digits_length d :
  forall n acc,
    String.length (Py.fixed_digits d n acc) = (d + String.length acc)%nat.
Proof.
  induction d as [|d IH]; intros n acc; cbn [Py.fixed_digits]; [reflexivity|].
  rewrite IH. cbn [String.length]. lia.
Qed.

Lemma digit_of_mod n : is_digit (ascii_of_N (48 + n mod 10)) = true.
Proof.
  unfold is_digit. cbv zeta.
  assert (H : (n mod 10 < 10)%N) by (apply N.mod_upper_bound; discriminate).
  revert H. generalize (n mod 10)%N. intros k Hk.
  rewrite N_ascii_embedding by lia.
  apply andb_true_iff. split; apply N.leb_le; lia.
Qed.

Lemma fixed_digits_digits d :
  forall n acc,
    digits_only acc = true -> digits_only (Py.fixed_digits d n acc) = true.
Proof.
  induction d as [|d IH]; intros n acc Hacc; cbn [Py.fixed_digits]; [exact Hacc|].
  apply IH. cbn [digits_only]. rewrite digit_of_mod, Hacc. reflexivity.
Qed.

Lemma fixed_point_shape d q :
  d <> O ->
  exists n frac,
    Py.fixed_point d q = Py.decimal n +:+ "." +:+ frac /\
    String.length frac = d /\ digits_only frac = true.
Proof.
  intros Hd. destruct d as [|d]; [congruence|].
  unfold Py.fixed_point. cbv zeta.
  eexists _, _. split; [reflexivity|]. split.
  - rewrite fixed_digits_length. cbn. lia.
  - apply fixed_digits_digits. reflexivity.
Qed.

(** What [Prim2SF] reads off a float that is neither a NaN nor infinite. *)
Lemma Prim2SF_finite x :
  is_finite x = true ->
  (exists s, Prim2SF x = S754_zero s) \/ (exists s m e, Prim2SF x = S754_finite s m e).
Proof.
  unfold is_finite, Prim2SF. intros H.
  apply negb_true_iff, orb_false_iff in H. destruct H as [-> Hinf].
  destruct (is_zero x); [left; eauto|]. rewrite Hinf.
  destruct (Z.frexp x) as [r e].
  destruct (shr_fexp _ _ _ _ _) as [shr e'].
  destruct (shr_m shr); [left | right | left]; eauto.
Qed.

(** A finite float is shown with a point and exactly [d] decimals. *)
Lemma format_f_finite d x :
  d <> O -> is_finite x = true -> fixed_point_text d (Py.format_f d x).
Proof.
  intros Hd Hx. unfold Py.format_f, fixed_point_text.
  destruct (Prim2SF_finite x Hx) as [[s ->] | (s & m & e & ->)].
  - destruct (fixed_point_shape d 0 Hd) as (n & frac & -> & Hlen & Hdig).
    exists s, n, frac. auto.
  - destruct (fixed_point_shape d (Py.scaled d m e) Hd)
      as (n & frac & -> & Hlen & Hdig).
    exists s, n, frac. auto.
Qed.

(** No float is shown as the placeholder. *)
Lemma fixed_point_not_placeholder s q :
  Py.sign_text s +:+ Py.fixed_point 6 q <> "--".
Proof.
  intros H. apply (f_equal String.length) in H.
  destruct (fixed_point_shape 6 q (ltac:(discriminate)))
    as (n & frac & E & Hlen & _).
  rewrite E, !string_length_app, Hlen in H. cbn in H. lia.
Qed.

Lemma format_f_not_placeholder x : Py.format_f 6 x <> "--".
Proof.
  unfold Py.format_f.
  destruct (Prim2SF x) as [s | s | | s m e].
  - apply fixed_point_not_placeholder.
  - destruct s; discriminate.
  - discriminate.
  - apply fixed_point_not_placeholder.
Qed.

Lemma with_unit_not_placeholder (s : string) : s +:+ " m" <> "--".
Proof.
  destruct s as [|c [|c' s]]; cbn; try discriminate.
  intros H. apply (f_equal String.length) in H. cbn in H.
  rewrite string_length_app in H. cbn in H. lia.
Qed.

(** ** Tiles along a run of card methods *)

Lemma set_position_tiles c t_lat t_lon t_alt t_upd la lo al ut :
  tiles c = (Some t_lat, Some t_lon, Some t_alt, Some t_upd) ->
  exists c',
    set_position la lo al ut c = Returned tt c' /\
    tiles c'
    = (Some (from_option (Py.format_f 6) t_lat la),
       Some (from_option (Py.format_f 6) t_lon lo),
       Some (from_option (fun x => Py.format_f 1 x +:+ " m") t_alt al),
       Some (default t_upd ut)).
Proof.
  intros Ht. eexists. split; [apply set_position_returns|].
  unfold tiles in *. injection Ht as Hla Hlo Hal Hup.
  cbn [positioned lat_card lon_card alt_card updated_card].
  rewrite !kv_text_put_opt, Hla, Hlo, Hal, Hup.
  destruct la, lo, al, ut; reflexivity.
Qed.

(** One card call on a card that shows four tiles: it returns, the card
    still shows four tiles, a number tile shows the placeholder only if it
    did before, and so does the Updated tile unless the placeholder text
    itself was passed. *)
Lemma card_perform_tiles k c t_lat t_lon t_alt t_upd :
  tiles c = (Some t_lat, Some t_lon, Some t_alt, Some t_upd) ->
  exists c' t_lat' t_lon' t_alt' t_upd',
    card_perform k c = Returned tt c' /\
    tiles c' = (Some t_lat', Some t_lon', Some t_alt', Some t_upd') /\
    (t_lat' = "--" -> t_lat = "--") /\
    (t_lon' = "--" -> t_lon = "--") /\
    (t_alt' = "--" -> t_alt = "--") /\
    (t_upd' = "--" ->
     t_upd = "--" \/ exists la lo al, k = SetPosition la lo al (Some "--")).
Proof.
  intros Ht. destruct k as [la lo al ut | active | live]; cbn [card_perform].
  - destruct (set_position_tiles c _ _ _ _ la lo al ut Ht) as (c' & Hrun & Ht').
    exists c'. eexists _, _, _, _. split; [exact Hrun|]. split; [exact Ht'|].
    repeat split.
    + destruct la as [x|]; cbn [from_option];
        [intros H; destruct (format_f_not_placeholder x H) | auto].
    + destruct lo as [x|]; cbn [from_option];
        [intros H; destruct (format_f_not_placeholder x H) | auto].
    + destruct al as [x|]; cbn [from_option];
        [intros H; destruct (with_unit_not_placeholder _ H) | auto].
    + destruct ut as [t|]; cbn [from_option]; unfold id;
        [intros ->; right; eauto | auto].
  - eexists _, t_lat, t_lon, t_alt, t_upd.
    split; [apply set_gps_active_returns|]. split; [exact Ht | auto].
  - eexists _, t_lat, t_lon, t_alt, t_upd.
    split; [apply set_live_returns|]. split; [exact Ht | auto].
Qed.

Lemma card_run_tiles ks :
  forall c t_lat t_lon t_alt t_upd,
    tiles c = (Some t_lat, Some t_lon, Some t_alt, Some t_upd) ->
    exists c' t_lat' t_lon' t_alt' t_upd',
      card_run ks c = Returned tt c' /\
      tiles c' = (Some t_lat', Some t_lon', Some t_alt', Some t_upd') /\
      (t_lat' = "--" -> t_lat = "--") /\
      (t_lon' = "--" -> t_lon = "--") /\
      (t_alt' = "--" -> t_alt = "--") /\
      (t_upd' = "--" ->
       t_upd = "--" \/ exists la lo al, In (SetPosition la lo al (Some "--")) ks).
Proof.
  induction ks as [|k ks IH]; intros c t_lat t_lon t_alt t_upd Ht.
  - exists c, t_lat, t_lon, t_alt, t_upd. split; [reflexivity|]. auto 10.
  - destruct (card_perform_tiles k c _ _ _ _ Ht)
      as (c1 & a1 & b1 & h1 & u1 & Hrun1 & Ht1 & Ha1 & Hb1 & Hh1 & Hu1).
    destruct (IH c1 _ _ _ _ Ht1)
      as (c2 & a2 & b2 & h2 & u2 & Hrun2 & Ht2 & Ha2 & Hb2 & Hh2 & Hu2).
    exists c2, a2, b2, h2, u2. cbn [card_run].
    rewrite (bind_returned _ _ _ _ _ Hrun1).
    split; [exact Hrun2|]. split; [exact Ht2|].
    split; [auto|]. split; [auto|]. split; [auto|].
    intros Hu. destruct (Hu2 Hu) as [E | (la & lo & al & Hin)].
    + destruct (Hu1 E) as [E1 | (la & lo & al & ->)]; [left; exact E1|].
      right. exists la, lo, al. left. reflexivity.
    + right. exists la, lo, al. right. exact Hin.
Qed.

(** Every card the constructor builds shows four tiles. *)
Lemma DroneStatusCard_init_tiles name status la lo al ut :
  tiles (DroneStatusCard_init name status la lo al ut)
  = (Some (from_option (Py.format_f 6) "--" la),
     Some (from_option (Py.format_f 6) "--" lo),
     Some (from_option (fun x => Py.format_f 1 x +:+ " m") "--" al),
     Some (or_placeholder ut)).
Proof. destruct la, lo, al; reflexivity. Qed.

(** ** The claims *)

(** C1: for a recognized drone name and any position values,
    [update_drone_position] hands (latitude, longitude, altitude, updated
    text) to that drone's card [set_position] when the window's GPS flag for
    the drone is true at the call, and only then: with the flag false the
    card keeps its Latitude, Longitude, Altitude and Updated tiles, however
    many position updates are made and whatever names and values they carry. *)
Theorem update_drone_position_gps_gate (d : drone) (drone_name : string)
    (latitude longitude altitude_m : float) (updated_text : option string)
    (w : MissionPlannerWindow) :
  normalize drone_name = drone_key d ->
  (exists w',
     update_drone_position drone_name latitude longitude altitude_m
       updated_text w = Returned tt w' /\
     (gps_flag d w = true ->
      set_position (Some latitude) (Some longitude) (Some altitude_m)
        updated_text (card_of d w) = Returned tt (card_of d w')) /\
     (gps_flag d w = false -> card_of d w' = card_of d w)) /\
  (gps_flag d w = false ->
   forall us,
   exists w',
     run (position_updates us) w = Returned tt w' /\
     tiles (card_of d w') = tiles (card_of d w)).
Proof.
  intros Hname. split.
  - destruct (update_drone_position_effect drone_name latitude longitude
                altitude_m updated_text w) as (w' & Hrun & _ & _ & Hcard).
    exists w'. split; [exact Hrun|].
    specialize (Hcard d). rewrite Hname, String.eqb_refl in Hcard.
    cbn [andb] in Hcard.
    split; intros Hflag; rewrite Hflag in Hcard; rewrite Hcard;
      [apply set_position_returns | reflexivity].
  - intros Hoff us.
    destruct (position_updates_gated d us w Hoff) as (w' & Hrun & Hcard & _).
    exists w'. split; [exact Hrun | rewrite Hcard; reflexivity].
Qed.

Lemma update_drone_position_gps_gate_witness :
  normalize "  Freyja " = drone_key Freyja /\
  exists w',
    update_drone_position "  Freyja " 12.9716 77.5946 45.333 None
      MissionPlannerWindow_init = Returned tt w' /\
    card_of Freyja w' = card_of Freyja MissionPlannerWindow_init.
Proof.
  split; [reflexivity|].
  destruct (update_drone_position_gps_gate Freyja "  Freyja " 12.9716 77.5946
              45.333 None MissionPlannerWindow_init eq_refl)
    as [(w' & Hrun & _ & Hoff) _].
  exists w'. split; [exact Hrun | apply Hoff; reflexivity].
Defined.

(** C2: for a drone name whose trimmed, lowercased form is neither "freyja"
    nor "cleo", each of [set_drone_live], [set_drone_gps_active] and
    [update_drone_position] returns without raising and leaves the whole
    window as it was: both cards with their tiles, live labels and GPS
    labels, the GPS flags and the last-position cache. *)
Theorem unrecognized_name_changes_nothing (drone_name : string)
    (w : MissionPlannerWindow) (live active : bool)
    (latitude longitude altitude_m : float) (updated_text : option string) :
  normalize drone_name <> "freyja" ->
  normalize drone_name <> "cleo" ->
  set_drone_live drone_name live w = Returned tt w /\
  set_drone_gps_active drone_name active w = Returned tt w /\
  update_drone_position drone_name latitude longitude altitude_m updated_text w
  = Returned tt w.
Proof.
  intros Hf Hc. split; [|split].
  - apply set_drone_live_unknown; assumption.
  - apply set_drone_gps_active_unknown; assumption.
  - apply update_drone_position_unknown; assumption.
Qed.

Lemma unrecognized_name_changes_nothing_witness :
  normalize " Odin " <> "freyja" /\
  normalize " Odin " <> "cleo" /\
  update_drone_position " Odin " 12.9716 77.5946 45.333 (Some "12:00:01")
    MissionPlannerWindow_init
  = Returned tt MissionPlannerWindow_init.
Proof.
  split; [discriminate | split; [discriminate|]].
  apply (unrecognized_name_changes_nothing " Odin " MissionPlannerWindow_init
           true true 12.9716 77.5946 45.333 (Some "12:00:01"));
    discriminate.
Defined.

(** C3: every [update_drone_position] call for a recognized drone name sets
    that drone's entry of the last-position cache to the passed (latitude,
    longitude, altitude), whatever the drone's GPS flag is: with the flag
    false the card is left alone and the cache is written all the same. *)
Theorem update_drone_position_records_position (d : drone)
    (drone_name : string) (latitude longitude altitude_m : float)
    (updated_text : option string) (w : MissionPlannerWindow) :
  normalize drone_name = drone_key d ->
  exists w',
    update_drone_position drone_name latitude longitude altitude_m
      updated_text w = Returned tt w' /\
    _last_positions w' !! drone_key d = Some (latitude, longitude, altitude_m) /\
    (gps_flag d w = false -> card_of d w' = card_of d w).
Proof.
  intros Hname. eexists. split; [apply (update_drone_position_known d), Hname|].
  split.
  - cbn [_last_positions with_last_positions]. apply lookup_insert_eq.
  - intros ->. apply card_of_with_last_positions.
Qed.

Lemma update_drone_position_records_position_witness :
  normalize "CLEO" = drone_key Cleo /\
  gps_flag Cleo MissionPlannerWindow_init = false /\
  exists w',
    update_drone_position "CLEO" 12.9716 77.5946 45.333 None
      MissionPlannerWindow_init = Returned tt w' /\
    _last_positions w' !! "cleo" = Some (12.9716, 77.5946, 45.333)%float.
Proof.
  split; [reflexivity | split; [reflexivity|]].
  destruct (update_drone_position_records_position Cleo "CLEO" 12.9716 77.5946
              45.333 None MissionPlannerWindow_init eq_refl)
    as (w' & Hrun & Hcache & _).
  exists w'. split; [exact Hrun | exact Hcache].
Defined.

(** C4, as the code has it: a call of [set_position] on a card overwrites
    exactly the tiles whose argument is not [None] and leaves the text of
    the others: a latitude or longitude is shown by the fixed-point format
    with 6 decimals, an altitude by the one with 1 decimal followed by " m",
    an updated text as it is. A finite number is shown as a sign, a
    numeral, a point and exactly that many decimals. No run of card calls
    brings the placeholder "--" back to the Latitude, Longitude or Altitude
    tile; the Updated tile shows "--" after a run only if it showed it
    before or a call passed the text "--" itself. The constructor shows
    "--" for every missing value. *)
Theorem set_position_overwrites_non_null (c : DroneStatusCard)
    (t_lat t_lon t_alt t_upd : string) :
  tiles c = (Some t_lat, Some t_lon, Some t_alt, Some t_upd) ->
  (forall la lo al ut,
   exists c',
     set_position la lo al ut c = Returned tt c' /\
     tiles c'
     = (Some (from_option (Py.format_f 6) t_lat la),
        Some (from_option (Py.format_f 6) t_lon lo),
        Some (from_option (fun x => Py.format_f 1 x +:+ " m") t_alt al),
        Some (default t_upd ut))) /\
  (forall x,
     Py.format_f 6 x <> "--" /\
     Py.format_f 1 x +:+ " m" <> "--" /\
     (is_finite x = true ->
      fixed_point_text 6 (Py.format_f 6 x) /\
      fixed_point_text 1 (Py.format_f 1 x))) /\
  (forall ks,
   exists c' t_lat' t_lon' t_alt' t_upd',
     card_run ks c = Returned tt c' /\
     tiles c' = (Some t_lat', Some t_lon', Some t_alt', Some t_upd') /\
     (t_lat' = "--" -> t_lat = "--") /\
     (t_lon' = "--" -> t_lon = "--") /\
     (t_alt' = "--" -> t_alt = "--") /\
     (t_upd' = "--" ->
      t_upd = "--" \/
      exists la lo al, In (SetPosition la lo al (Some "--")) ks)) /\
  (forall name status la lo al ut,
     tiles (DroneStatusCard_init name status la lo al ut)
     = (Some (from_option (Py.format_f 6) "--" la),
        Some (from_option (Py.format_f 6) "--" lo),
        Some (from_option (fun x => Py.format_f 1 x +:+ " m") "--" al),
        Some (or_placeholder ut))).
Proof.
  intros Ht. split; [|split; [|split]].
  - intros la lo al ut. apply set_position_tiles. exact Ht.
  - intros x. split; [apply format_f_not_placeholder|].
    split; [apply with_unit_not_placeholder|].
    intros Hx. split; apply format_f_finite; (discriminate || exact Hx).
  - intros ks. apply card_run_tiles. exact Ht.
  - apply DroneStatusCard_init_tiles.
Qed.

Lemma set_position_overwrites_non_null_witness :
  tiles (DroneStatusCard_init "Freyja" "Status: Offline" None None None None)
  = (Some "--", Some "--", Some "--", Some "--") /\
  exists c',
    set_position (Some 12.9716%float) None (Some 45.333%float) None
      (DroneStatusCard_init "Freyja" "Status: Offline" None None None None)
    = Returned tt c' /\
    tiles c' = (Some "12.971600", Some "--", Some "45.3 m", Some "--").
Proof.
  split; [reflexivity|].
  destruct (proj1 (set_position_overwrites_non_null
                     (DroneStatusCard_init "Freyja" "Status: Offline"
                        None None None None)
                     "--" "--" "--" "--" eq_refl)
              (Some 12.9716%float) None (Some 45.333%float) None)
    as (c' & Hrun & Ht).
  exists c'. split; [exact Hrun|].
  etransitivity; [exact Ht | vm_compute; reflexivity].
Defined.

(** C4 as it was claimed fails where it says that no call brings "--" back
    and that a number is always shown with 6 decimals: a card built with the
    updated text "12:00:01" shows "--" on its Updated tile after
    [set_position(updated_text="--")], and a NaN latitude is shown as
    "nan". *)
Lemma set_position_can_show_placeholder_again :
  kv_text
    (updated_card
       (DroneStatusCard_init "Freyja" "Status: Offline" None None None
          (Some "12:00:01")))
  = Some "12:00:01" /\
  (exists c',
     set_position None None None (Some "--")
       (DroneStatusCard_init "Freyja" "Status: Offline" None None None
          (Some "12:00:01"))
     = Returned tt c' /\
     kv_text (updated_card c') = Some "--") /\
  (exists c',
     set_position (Some nan) None None None
       (DroneStatusCard_init "Freyja" "Status: Offline" None None None None)
     = Returned tt c' /\
     kv_text (lat_card c') = Some "nan").
Proof.
  split; [reflexivity|].
  split; eexists; (split; [vm_compute; reflexivity | reflexivity]).
Qed.

(** C5: in every state of the window, reachable ones included, a call of one
    of the window's update methods changes a card's tiles only if it is an
    [update_drone_position] for that drone made while the drone's GPS flag is
    true; [set_drone_gps_active] itself never touches the tiles, so nothing
    is cleared when GPS goes inactive; and from a state with the flag off
    the tiles stay as they are through every run of calls that does not
    switch that drone's GPS on again. *)
Theorem tiles_change_only_while_gps_active (d : drone)
    (w : MissionPlannerWindow) :
  (forall c,
   exists w',
     perform c w = Returned tt w' /\
     (tiles (card_of d w') <> tiles (card_of d w) ->
      exists n lat lon alt t,
        c = UpdateDronePosition n lat lon alt t /\
        normalize n = drone_key d /\ gps_flag d w = true)) /\
  (forall n active,
   exists w',
     set_drone_gps_active n active w = Returned tt w' /\
     tiles (card_of d w') = tiles (card_of d w)) /\
  (gps_flag d w = false ->
   forall cs,
     Forall (keeps_gps_off d) cs ->
     exists w',
       run cs w = Returned tt w' /\
       tiles (card_of d w') = tiles (card_of d w)).
Proof.
  split; [|split].
  - intros c. apply perform_tiles.
  - intros n active.
    destruct (set_drone_gps_active_effect n active w) as (w' & Hrun & Heff).
    exists w'. split; [exact Hrun | apply Heff].
  - intros Hoff cs Hcs.
    destruct (run_while_gps_off d cs Hcs w Hoff) as (w' & Hrun & _ & Ht).
    eauto.
Qed.

Lemma tiles_change_only_while_gps_active_witness :
  exists w,
    run [SetDroneGpsActive "freyja" true;
         UpdateDronePosition "freyja" 12.9716 77.5946 45.333 None;
         SetDroneGpsActive "freyja" false]
      MissionPlannerWindow_init = Returned tt w /\
    gps_flag Freyja w = false /\
    exists w',
      run [UpdateDronePosition "Freyja" 1 2 3 (Some "12:00:01");
           SetDroneGpsActive "cleo" true;
           SetDroneLive "freyja" true]
        w = Returned tt w' /\
      tiles (freyja_card w')
      = (Some "12.971600", Some "77.594600", Some "45.3 m", Some "--").
Proof.
  eexists. split; [vm_compute; reflexivity|]. split; [reflexivity|].
  match goal with
  | |- exists w', run ?cs ?w = _ /\ _ =>
      destruct (proj2 (proj2 (tiles_change_only_while_gps_active Freyja w))
                  eq_refl cs) as (w' & Hrun & Ht)
  end.
  - repeat constructor; intros n E; inversion E; subst; discriminate.
  - exists w'. split; [exact Hrun|]. etransitivity; [exact Ht | reflexivity].
Defined.

(** C6: right after [MissionPlannerWindow.__init__] the window's GPS flag is
    [False] for both drones while each card's GPS label reads "GPS: --" with
    the property "unknown"; the two stay that way, flag off and label
    unknown, through every run of calls that has no [set_drone_gps_active]
    for that drone. *)
Theorem initial_gps_flag_and_label_disagree (d : drone) :
  _gps_active MissionPlannerWindow_init !! drone_key d = Some false /\
  text (gps_lbl (card_of d MissionPlannerWindow_init)) = "GPS: --" /\
  property (gps_lbl (card_of d MissionPlannerWindow_init)) !! "gps"
  = Some (QString "unknown") /\
  forall cs,
    Forall (leaves_gps d) cs ->
    exists w,
      run cs MissionPlannerWindow_init = Returned tt w /\
      _gps_active w !! drone_key d = Some false /\
      text (gps_lbl (card_of d w)) = "GPS: --".
Proof.
  assert (H0 : _gps_active MissionPlannerWindow_init !! drone_key d = Some false)
    by (destruct d; reflexivity).
  assert (H1 : text (gps_lbl (card_of d MissionPlannerWindow_init)) = "GPS: --")
    by (destruct d; reflexivity).
  split; [exact H0|]. split; [exact H1|]. split; [destruct d; reflexivity|].
  intros cs Hcs.
  destruct (run_leaves_gps d cs Hcs MissionPlannerWindow_init)
    as (w & Hrun & Hflag & Hlbl).
  exists w. split; [exact Hrun|]. split; congruence.
Qed.

Lemma initial_gps_flag_and_label_disagree_witness :
  exists w,
    run [SetDroneLive "Freyja" true;
         UpdateDronePosition "freyja" 12.9716 77.5946 45.333 None;
         SetDroneGpsActive "cleo" true]
      MissionPlannerWindow_init = Returned tt w /\
    _gps_active w !! "freyja" = Some false /\
    text (gps_lbl (freyja_card w)) = "GPS: --".
Proof.
  apply (initial_gps_flag_and_label_disagree Freyja).
  repeat constructor; intros n active E; inversion E; subst; discriminate.
Defined.

(** C7: [set_live] is idempotent. For any [live] and any card, calling
    [set_live(live)] twice in a row gives the same outcome as calling it
    once; the status label then reads "Status: Live" for [True] and
    "Status: Offline" for [False], and its property "live" is [live]. *)
Theorem set_live_idempotent (live : bool) (c : DroneStatusCard) :
  (set_live live ;; set_live live) c = set_live live c /\
  exists c',
    set_live live c = Returned tt c' /\
    text (status_lbl c')
    = (if live then "Status: Live" else "Status: Offline") /\
    property (status_lbl c') !! "live" = Some (QBool live).
Proof.
  split.
  - rewrite (bind_returned _ _ _ _ _ (set_live_returns live c)).
    rewrite !set_live_returns. unfold with_status_lbl. cbn.
    rewrite insert_insert_eq. reflexivity.
  - eexists. split; [apply set_live_returns|].
    split; [reflexivity | apply lookup_insert_eq].
Qed.

(** C8: the [moved] signal of [update_drone_position] is true exactly when
    the drone has no cached position or some coordinate of the passed triple
    differs from the cached one by more than 1e-9: the comparison is
    [abs(a - b) > 1e-9] in binary64, that is IEEE 754 subtraction, absolute
    value and "less than" against the binary64 number nearest to 10^-9. And
    nothing uses the signal: the method, and every run of calls, has the
    same outcome as with the computation removed, and what a position
    update leaves behind does not depend on what was cached for the drone,
    the one input the signal has besides the passed values. *)
Theorem moved_is_computed_and_dropped :
  (forall prev curr, moved_signal prev curr = true <-> moved_by_spec prev curr) /\
  (forall a b, (1e-9 <? abs (a - b))%float = exceeds_threshold a b) /\
  (2 * Z.abs (4835703278458517 * 10 ^ 9 - 2 ^ 82) <= 10 ^ 9)%Z /\
  (forall n lat lon alt t w,
     update_drone_position n lat lon alt t w
     = update_drone_position_without_moved n lat lon alt t w) /\
  (forall cs w, run cs w = run_without_moved cs w) /\
  (forall d n lat lon alt t w m,
     normalize n = drone_key d ->
     (forall k, k <> drone_key d -> m !! k = _last_positions w !! k) ->
     update_drone_position n lat lon alt t (with_last_positions m w)
     = update_drone_position n lat lon alt t w).
Proof.
  split; [exact moved_signal_spec|].
  split; [exact differs_exceeds_threshold|].
  split; [vm_compute; discriminate|].
  split; [exact update_drone_position_drops_moved|].
  split; [|exact update_drone_position_forgets_cache].
  induction cs as [|c cs IH]; intros w; [reflexivity|].
  cbn [run run_without_moved]. unfold bind.
  replace (perform_without_moved c w) with (perform c w)
    by (destruct c; try reflexivity; apply update_drone_position_drops_moved).
  destruct (perform c w) as [[] w'|e]; [apply IH | reflexivity].
Qed.

Lemma moved_is_computed_and_dropped_witness :
  update_drone_position "Freyja" 12.9716 77.5946 45.333 None
    (with_last_positions {[ "freyja" := (1, 2, 3)%float ]}
       MissionPlannerWindow_init)
  = update_drone_position "Freyja" 12.9716 77.5946 45.333 None
      MissionPlannerWindow_init.
Proof.
  apply (proj2 (proj2 (proj2 (proj2 (proj2 moved_is_computed_and_dropped))))
           Freyja "Freyja" 12.9716%float 77.5946%float 45.333%float None
           MissionPlannerWindow_init {[ "freyja" := (1, 2, 3)%float ]} eq_refl).
  intros k Hk. cbn [drone_key] in Hk.
  rewrite lookup_singleton_ne by congruence. reflexivity.
Defined.

Example moved_examples :
  moved_signal None (1, 2, 3)%float = true /\
  moved_signal (Some (1, 2, 3)%float) (1, 2, 3)%float = false /\
  moved_signal (Some (1, 2, 3)%float) (1, 2.000001, 3)%float = true /\
  moved_signal (Some (1, 2, 3)%float) (1, 2.0000000000001, 3)%float = false.
Proof. repeat split; vm_compute; reflexivity. Qed.

Lemma to_float_outcome {S} (v : number) (s : S) :
  to_float v s
  = if too_large v then Raised OverflowError else Returned (float_value v) s.
Proof.
  destruct v as [x|n]; [reflexivity|].
  unfold to_float, too_large, float_value.
  destruct (float_of_int n); reflexivity.
Qed.

Lemma format_number_outcome {S} d (v : number) (s : S) :
  format_number d v s
  = if too_large v then Raised OverflowError
    else Returned (Py.format_f d (float_value v)) s.
Proof.
  unfold format_number, bind. rewrite to_float_outcome.
  destruct (too_large v); reflexivity.
Qed.

(** [set_position] with numbers as passed: an int too large raises, and
    otherwise the call is the one on the floats the numbers stand for. *)
Lemma numeric_set_position_outcome la lo al ut c :
  Numeric.set_position la lo al ut c
  = if any_too_large [la; lo; al] then Raised OverflowError
    else set_position (float_value <$> la) (float_value <$> lo)
           (float_value <$> al) ut c.
Proof.
  unfold Numeric.set_position, any_too_large.
  cbn [existsb]. rewrite orb_false_r.
  assert (E : forall v, exists b, too_large v = b) by eauto.
  destruct la as [va|], lo as [vo|], al as [vl|], ut as [t|];
    cbn [from_option fmap option_fmap option_map];
    try (destruct (E va) as [ba Ea]; rewrite Ea);
    try (destruct (E vo) as [bo Eo]; rewrite Eo);
    try (destruct (E vl) as [bl El]; rewrite El);
    unfold bind, zoom, ret; cbv beta iota;
    repeat (rewrite ?format_number_outcome, ?Ea, ?Eo, ?El,
              ?_set_kv_value_returns;
            cbv beta iota);
    try destruct ba; try destruct bo; try destruct bl;
    cbn [orb]; cbv beta iota;
    repeat (rewrite ?format_number_outcome, ?Ea, ?Eo, ?El,
              ?_set_kv_value_returns;
            cbv beta iota);
    rewrite ?set_position_returns;
    first [reflexivity | destruct c; reflexivity].
Qed.

(** [update_drone_position] with numbers as passed: for a recognized name
    an int too large raises, and otherwise the call is the one on the
    floats the numbers stand for. *)
Lemma numeric_update_drone_position_outcome n lat lon alt ut w :
  Numeric.update_drone_position n lat lon alt ut w
  = if (String.eqb (normalize n) "freyja" || String.eqb (normalize n) "cleo")
       && any_too_large [Some lat; Some lon; Some alt]
    then Raised OverflowError
    else update_drone_position n (float_value lat) (float_value lon)
           (float_value alt) ut w.
Proof.
  unfold Numeric.update_drone_position, update_drone_position, any_too_large,
    normalize.
  cbv zeta. cbn [existsb from_option]. rewrite orb_false_r.
  assert (E : forall v, exists b, too_large v = b) by eauto.
  destruct (E lat) as [ba Ea], (E lon) as [bo Eo], (E alt) as [bl El].
  rewrite Ea, Eo, El.
  destruct (String.eqb _ "freyja");
    [|destruct (String.eqb _ "cleo"); [|reflexivity]];
    cbn [orb andb]; unfold bind, gets; cbv beta iota;
    (destruct (default false _); cbn [on_card]; unfold zoom, ret;
     rewrite ?numeric_set_position_outcome; unfold any_too_large;
     cbn [existsb from_option fmap option_fmap option_map];
     rewrite ?Ea, ?Eo, ?El, ?orb_false_r;
     destruct ba, bo, bl; cbn [orb]; cbv beta iota;
     rewrite ?set_position_returns; cbv beta iota;
     repeat (rewrite ?to_float_outcome, ?Ea, ?Eo, ?El; cbv beta iota);
     reflexivity).
Qed.

(** C9, as the code has it: every public operation returns for every name
    text, every boolean and every number that is a float, out-of-range
    coordinates, NaN and the infinities included, or an int that converts to
    a float. [set_position] raises [OverflowError] exactly when a latitude,
    longitude or altitude it is given is an int too large to convert, and
    [update_drone_position] exactly when the name is recognized and one of
    the three numbers is; nothing else is raised. On floats the two
    methods are the ones stated above. *)
Theorem public_operations_raise_only_on_huge_int :
  (forall la lo al ut c,
     if any_too_large [la; lo; al]
     then Numeric.set_position la lo al ut c = Raised OverflowError
     else exists c', Numeric.set_position la lo al ut c = Returned tt c') /\
  (forall active c, exists c', set_gps_active active c = Returned tt c') /\
  (forall live c, exists c', set_live live c = Returned tt c') /\
  (forall live w, exists w', set_global_live live w = Returned tt w') /\
  (forall n live w, exists w', set_drone_live n live w = Returned tt w') /\
  (forall n active w,
     exists w', set_drone_gps_active n active w = Returned tt w') /\
  (forall n lat lon alt ut w,
     if (String.eqb (normalize n) "freyja" || String.eqb (normalize n) "cleo")
        && any_too_large [Some lat; Some lon; Some alt]
     then Numeric.update_drone_position n lat lon alt ut w
          = Raised OverflowError
     else exists w',
            Numeric.update_drone_position n lat lon alt ut w
            = Returned tt w') /\
  (forall la lo al ut c,
     Numeric.set_position (Float <$> la) (Float <$> lo) (Float <$> al) ut c
     = set_position la lo al ut c) /\
  (forall n lat lon alt ut w,
     Numeric.update_drone_position n (Float lat) (Float lon) (Float alt) ut w
     = update_drone_position n lat lon alt ut w).
Proof.
  split; [|split; [|split; [|split; [|split; [|split; [|split; [|split]]]]]]].
  - intros. rewrite numeric_set_position_outcome.
    destruct (any_too_large _); [reflexivity|].
    eexists. apply set_position_returns.
  - intros. eexists. apply set_gps_active_returns.
  - intros. eexists. apply set_live_returns.
  - intros. eexists. reflexivity.
  - intros. destruct (set_drone_live_effect n live w) as (w' & H & _). eauto.
  - intros.
    destruct (set_drone_gps_active_effect n active w) as (w' & H & _). eauto.
  - intros n lat lon alt ut w. rewrite numeric_update_drone_position_outcome.
    destruct (_ && _); [reflexivity|].
    destruct (update_drone_position_effect n (float_value lat)
                (float_value lon) (float_value alt) ut w) as (w' & H & _).
    eauto.
  - intros. rewrite numeric_set_position_outcome.
    assert (H : any_too_large [Float <$> la; Float <$> lo; Float <$> al] = false)
      by (destruct la, lo, al; reflexivity).
    rewrite H. destruct la, lo, al; reflexivity.
  - intros n lat lon alt ut w. rewrite numeric_update_drone_position_outcome.
    cbn [any_too_large existsb from_option too_large orb].
    rewrite andb_false_r. reflexivity.
Qed.

(** C9 as it was claimed fails for an int where a float is declared: with
    an int too large to convert to a float, here 10^400, [set_position]
    raises [OverflowError] when it formats the latitude, and
    [update_drone_position] raises it for a recognized drone, GPS off, when
    it computes [float(latitude)]. *)
Lemma huge_int_raises_overflow_error :
  Numeric.set_position (Some (Int (10 ^ 400))) None None None
    (DroneStatusCard_init "Freyja" "Status: Offline" None None None None)
  = Raised OverflowError /\
  Numeric.update_drone_position "freyja" (Int (10 ^ 400)) (Float 77.5946)
    (Float 45.333) None MissionPlannerWindow_init
  = Raised OverflowError.
Proof. split; vm_compute; reflexivity. Qed.

Example int_coordinates_are_shown :
  exists w,
    (set_drone_gps_active "cleo" true ;;
     Numeric.update_drone_position "cleo" (Int 12) (Int (-77)) (Int 45) None)
      MissionPlannerWindow_init = Returned tt w /\
    tiles (cleo_card w)
    = (Some "12.000000", Some "-77.000000", Some "45.0 m", Some "--").
Proof. eexists. split; [vm_compute; reflexivity | reflexivity]. Qed.

Example largest_int_that_converts :
  too_large (Int (2 ^ 1024 - 2 ^ 970 - 1)) = false /\
  too_large (Int (2 ^ 1024 - 2 ^ 970)) = true /\
  too_large (Int (- (2 ^ 1024 - 2 ^ 970))) = true.
Proof. repeat split; vm_compute; reflexivity. Qed.

Example out_of_range_latitude_is_shown :
  exists w,
    (set_drone_gps_active "cleo" true ;;
     update_drone_position "cleo" 123.5 (-500) infinity None)
      MissionPlannerWindow_init = Returned tt w /\
    tiles (cleo_card w)
    = (Some "123.500000", Some "-500.000000", Some "inf m", Some "--").
Proof. eexists. split; [vm_compute; reflexivity | reflexivity]. Qed.

(** C10: once [set_drone_gps_active] has been called with a recognized
    name, in every state any further run of calls leads to, the window's GPS
    flag of that drone and the card's GPS label agree: the label reads
    "GPS: Active" exactly when the flag is true and "GPS: Inactive" exactly
    when it is false, and it never reads "GPS: --" again. *)
Theorem gps_flag_and_label_agree (d : drone) (drone_name : string)
    (active : bool) (w : MissionPlannerWindow) (cs : list call) :
  normalize drone_name = drone_key d ->
  exists w1 w2 flag,
    set_drone_gps_active drone_name active w = Returned tt w1 /\
    run cs w1 = Returned tt w2 /\
    _gps_active w2 !! drone_key d = Some flag /\
    (flag = true <-> text (gps_lbl (card_of d w2)) = "GPS: Active") /\
    (flag = false <-> text (gps_lbl (card_of d w2)) = "GPS: Inactive") /\
    text (gps_lbl (card_of d w2)) <> "GPS: --".
Proof.
  intros Hn.
  destruct (set_drone_gps_active_agree d drone_name active w Hn)
    as (w1 & Hrun1 & Hw1).
  destruct (run_gps_agree d cs w1 Hw1) as (w2 & Hrun2 & flag & Hflag & Hlbl).
  exists w1, w2, flag. do 3 (split; [assumption|]).
  rewrite Hlbl. destruct flag; (split; [|split]);
    try (split; [reflexivity + discriminate | reflexivity + discriminate]);
    discriminate.
Qed.

Lemma gps_flag_and_label_agree_witness :
  normalize " Cleo" = drone_key Cleo /\
  exists w1 w2,
    set_drone_gps_active " Cleo" false MissionPlannerWindow_init
    = Returned tt w1 /\
    run [UpdateDronePosition "cleo" 1 2 3 None; SetDroneGpsActive "CLEO" true;
         SetGlobalLive true]
      w1 = Returned tt w2 /\
    text (gps_lbl (card_of Cleo w2)) <> "GPS: --".
Proof.
  split; [reflexivity|].
  destruct (gps_flag_and_label_agree Cleo " Cleo" false MissionPlannerWindow_init
              [UpdateDronePosition "cleo" 1 2 3 None;
               SetDroneGpsActive "CLEO" true; SetGlobalLive true] eq_refl)
    as (w1 & w2 & flag & H1 & H2 & _ & _ & _ & H3).
  exists w1, w2. auto.
Defined.

(** ** Further properties of the card methods *)

Lemma kv_put_put v1 v2 k : kv_put v2 (kv_put v1 k) = kv_put v2 k.
Proof. destruct k as [key [lbl|]]; reflexivity. Qed.

Lemma kv_put_opt_merge (a b : option string) k :
  kv_put_opt b (kv_put_opt a k) = kv_put_opt (or_else b a) k.
Proof. destruct a, b; cbn [kv_put_opt or_else]; auto using kv_put_put. Qed.

Lemma fmap_or_else {A B} (f : A -> B) (b a : option A) :
  f <$> or_else b a = or_else (f <$> b) (f <$> a).
Proof. destruct b; reflexivity. Qed.

Lemma kv_blank_put_opt v k : kv_blank (kv_put_opt v k) = kv_blank k.
Proof. destruct v; [apply kv_put_put | reflexivity]. Qed.

(** X1: two [set_position] calls in a row are one call in which each
    argument is the later one where that is given and the earlier one
    otherwise. *)
Theorem set_position_twice_merges (la lo al : option float)
    (ut : option string) (la' lo' al' : option float) (ut' : option string)
    (c : DroneStatusCard) :
  (set_position la lo al ut ;; set_position la' lo' al' ut') c
  = set_position (or_else la' la) (or_else lo' lo) (or_else al' al)
      (or_else ut' ut) c.
Proof.
  rewrite (bind_returned _ _ _ _ _ (set_position_returns la lo al ut c)).
  rewrite !set_position_returns. f_equal. unfold positioned.
  cbn [_name status_lbl lat_card lon_card alt_card updated_card gps_lbl].
  rewrite !kv_put_opt_merge, !fmap_or_else. reflexivity.
Qed.

(** X2: a card built with position values is the card built without them
    after [set_position] with those values, unless the updated text is the
    empty text: the constructor shows "--" for it, [set_position] shows it
    as it is. *)
Theorem constructor_values_are_set_position (name status : string)
    (la lo al : option float) (ut : option string) :
  (ut <> Some "" ->
   set_position la lo al ut
     (DroneStatusCard_init name status None None None None)
   = Returned tt (DroneStatusCard_init name status la lo al ut)) /\
  kv_text (updated_card (DroneStatusCard_init name status la lo al (Some "")))
  = Some "--" /\
  exists c',
    set_position la lo al (Some "")
      (DroneStatusCard_init name status None None None None)
    = Returned tt c' /\
    kv_text (updated_card c') = Some "".
Proof.
  split; [|split; [reflexivity|]].
  - intros Hut. rewrite set_position_returns. f_equal.
    unfold positioned, DroneStatusCard_init.
    destruct la, lo, al, ut as [[|a t]|]; first [reflexivity | congruence].
  - eexists. split; [apply set_position_returns | reflexivity].
Qed.

Lemma constructor_values_are_set_position_witness :
  set_position (Some 12.9716%float) None (Some 45.333%float) (Some "12:00:01")
    (DroneStatusCard_init "Freyja" "Status: Offline" None None None None)
  = Returned tt
      (DroneStatusCard_init "Freyja" "Status: Offline" (Some 12.9716%float)
         None (Some 45.333%float) (Some "12:00:01")).
Proof.
  apply (proj1 (constructor_values_are_set_position "Freyja" "Status: Offline"
                  (Some 12.9716%float) None (Some 45.333%float)
                  (Some "12:00:01"))).
  discriminate.
Defined.

(** X3: of two [set_gps_active] calls in a row only the later one counts,
    and after a call the label text and the "gps" property go together:
    "GPS: --" with "unknown" for [None], "GPS: Active" with "active" for
    [True], "GPS: Inactive" with "inactive" for [False]; the tiles and the
    status label stay. *)
Theorem set_gps_active_last_call_counts (a b : option bool)
    (c : DroneStatusCard) :
  (set_gps_active a ;; set_gps_active b) c = set_gps_active b c /\
  exists c',
    set_gps_active b c = Returned tt c' /\
    (text (gps_lbl c'), property (gps_lbl c') !! "gps")
    = match b with
      | None => ("GPS: --", Some (QString "unknown"))
      | Some true => ("GPS: Active", Some (QString "active"))
      | Some false => ("GPS: Inactive", Some (QString "inactive"))
      end /\
    tiles c' = tiles c /\
    status_lbl c' = status_lbl c.
Proof.
  split.
  - rewrite (bind_returned _ _ _ _ _ (set_gps_active_returns a c)).
    rewrite !set_gps_active_returns. unfold with_gps_lbl.
    cbn [_name status_lbl lat_card lon_card alt_card updated_card gps_lbl].
    destruct a as [[]|], b as [[]|]; cbn [property];
      rewrite insert_insert_eq; reflexivity.
  - eexists. split; [apply set_gps_active_returns|].
    split; [|split; reflexivity].
    destruct b as [[]|]; cbn [with_gps_lbl gps_lbl text property];
      rewrite lookup_insert_eq; reflexivity.
Qed.

(** X4: the three card methods do not interfere: [set_live],
    [set_gps_active] and [set_position] give the same card in either
    order. *)
Theorem card_methods_commute (live : bool) (active : option bool)
    (la lo al : option float) (ut : option string) (c : DroneStatusCard) :
  (set_live live ;; set_gps_active active) c
  = (set_gps_active active ;; set_live live) c /\
  (set_live live ;; set_position la lo al ut) c
  = (set_position la lo al ut ;; set_live live) c /\
  (set_gps_active active ;; set_position la lo al ut) c
  = (set_position la lo al ut ;; set_gps_active active) c.
Proof.
  repeat split;
    repeat first
      [ rewrite (bind_returned _ _ _ _ _ (set_live_returns live c))
      | rewrite (bind_returned _ _ _ _ _ (set_gps_active_returns active c))
      | rewrite (bind_returned _ _ _ _ _ (set_position_returns la lo al ut c)) ];
    rewrite ?set_live_returns, ?set_gps_active_returns, ?set_position_returns;
    reflexivity.
Qed.

(** X5: [set_position] writes texts of value labels and nothing else: the
    name, the status label, the GPS label, the captions of the tiles, the
    properties of the value labels and which tiles have a value label are
    as before; a card whose four tiles have no value label is returned
    unchanged. *)
Theorem set_position_writes_value_texts_only (la lo al : option float)
    (ut : option string) (c : DroneStatusCard) :
  exists c',
    set_position la lo al ut c = Returned tt c' /\
    blank_tiles c' = blank_tiles c /\
    (tiles c = (None, None, None, None) -> c' = c).
Proof.
  eexists. split; [apply set_position_returns|]. split.
  - unfold blank_tiles, positioned.
    cbn [_name status_lbl lat_card lon_card alt_card updated_card gps_lbl].
    rewrite !kv_blank_put_opt. reflexivity.
  - destruct c as [n st [k1 [l1|]] [k2 [l2|]] [k3 [l3|]] [k4 [l4|]] g];
      cbn; try discriminate.
    intros _. destruct la, lo, al, ut; reflexivity.
Qed.

Lemma set_position_writes_value_texts_only_witness :
  exists c',
    set_position (Some 1%float) None None None
      (mkDroneStatusCard "Freyja" (QLabel_new "Status: Offline")
         (mkKvCard "Latitude" None) (mkKvCard "Longitude" None)
         (mkKvCard "Altitude" None) (mkKvCard "Updated" None)
         (QLabel_new "GPS: --"))
    = Returned tt c' /\
    c' = mkDroneStatusCard "Freyja" (QLabel_new "Status: Offline")
           (mkKvCard "Latitude" None) (mkKvCard "Longitude" None)
           (mkKvCard "Altitude" None) (mkKvCard "Updated" None)
           (QLabel_new "GPS: --").
Proof.
  destruct (set_position_writes_value_texts_only (Some 1%float) None None None
              (mkDroneStatusCard "Freyja" (QLabel_new "Status: Offline")
                 (mkKvCard "Latitude" None) (mkKvCard "Longitude" None)
                 (mkKvCard "Altitude" None) (mkKvCard "Updated" None)
                 (QLabel_new "GPS: --")))
    as (c' & Hrun & _ & Hsame).
  exists c'. split; [exact Hrun | apply Hsame; reflexivity].
Defined.

(** ** The window along a run *)

Lemma resolve_known d n : normalize n = drone_key d -> resolve n = Some d.
Proof. unfold resolve. intros ->. destruct d; reflexivity. Qed.

Lemma resolve_Some n d : resolve n = Some d -> normalize n = drone_key d.
Proof.
  unfold resolve.
  destruct (String.eqb_spec (normalize n) "freyja") as [E|_];
    [intros [= <-]; exact E|].
  destruct (String.eqb_spec (normalize n) "cleo") as [E|_];
    [intros [= <-]; exact E | discriminate].
Qed.

Lemma resolve_None n :
  resolve n = None -> normalize n <> "freyja" /\ normalize n <> "cleo".
Proof.
  unfold resolve.
  destruct (String.eqb_spec (normalize n) "freyja"); [discriminate|].
  destruct (String.eqb_spec (normalize n) "cleo"); [discriminate|]. auto.
Qed.

Lemma perform_after c w : perform c w = Returned tt (after c w).
Proof.
  destruct c as [live | n live | n active | n lat lon alt t];
    cbn [perform after]; [reflexivity | | |];
    destruct (resolve n) as [d|] eqn:E.
  - apply set_drone_live_known, resolve_Some, E.
  - apply resolve_None in E. apply set_drone_live_unknown; apply E.
  - apply set_drone_gps_active_known, resolve_Some, E.
  - apply resolve_None in E. apply set_drone_gps_active_unknown; apply E.
  - apply update_drone_position_known, resolve_Some, E.
  - apply resolve_None in E. apply update_drone_position_unknown; apply E.
Qed.

(** What holds of the constructed window and after every call holds after
    every run. *)
Lemma run_invariant (I : MissionPlannerWindow -> Prop) :
  (forall c w, I w -> I (after c w)) ->
  forall cs w, I w -> exists w', run cs w = Returned tt w' /\ I w'.
Proof.
  intros Hstep cs. induction cs as [|c cs IH]; intros w Hw.
  - exists w. split; [reflexivity | exact Hw].
  - destruct (IH (after c w) (Hstep c w Hw)) as (w' & Hrun & Hw').
    exists w'. split; [|exact Hw']. cbn [run].
    rewrite (bind_returned _ _ _ _ _ (perform_after c w)). exact Hrun.
Qed.

Lemma after_gps_active c w :
  _gps_active (after c w)
  = match c with
    | SetDroneGpsActive n active =>
        match resolve n with
        | Some d => <[drone_key d := active]> (_gps_active w)
        | None => _gps_active w
        end
    | _ => _gps_active w
    end.
Proof.
  destruct c as [live | n live | n active | n lat lon alt t]; cbn [after];
    [reflexivity | | |]; destruct (resolve n) as [d|]; try reflexivity.
  - destruct d; reflexivity.
  - destruct d; reflexivity.
  - destruct (gps_flag d w), d; reflexivity.
Qed.

Lemma after_last_positions c w :
  _last_positions (after c w)
  = match c with
    | UpdateDronePosition n lat lon alt _ =>
        match resolve n with
        | Some d => <[drone_key d := (lat, lon, alt)]> (_last_positions w)
        | None => _last_positions w
        end
    | _ => _last_positions w
    end.
Proof.
  destruct c as [live | n live | n active | n lat lon alt t]; cbn [after];
    [reflexivity | | |]; destruct (resolve n) as [d|]; try reflexivity;
    destruct d; reflexivity.
Qed.

Lemma drone_key_in_keys d : drone_key d ∈ drone_keys.
Proof.
  unfold drone_keys.
  destruct d; cbn [drone_key]; rewrite elem_of_union, !elem_of_singleton; auto.
Qed.

(** X6: the window's dicts never grow beyond the two drones: after every
    run of calls from the constructed window, names of any kind included,
    [_gps_active] has exactly the keys "freyja" and "cleo" and
    [_last_positions] has no other key. *)
Theorem window_dicts_hold_drone_keys_only (cs : list call) :
  exists w,
    run cs MissionPlannerWindow_init = Returned tt w /\
    dom (_gps_active w) = drone_keys /\
    dom (_last_positions w) ⊆ drone_keys.
Proof.
  apply (run_invariant
           (fun w => dom (_gps_active w) = drone_keys /\
                     dom (_last_positions w) ⊆ drone_keys)).
  - intros c w [Hg Hl]. rewrite after_gps_active, after_last_positions. split.
    + destruct c as [live | n live | n active | n lat lon alt t];
        try exact Hg.
      destruct (resolve n) as [d|]; [|exact Hg].
      rewrite dom_insert_L, Hg. apply subseteq_union_1_L, singleton_subseteq_l.
      apply drone_key_in_keys.
    + destruct c as [live | n live | n active | n lat lon alt t];
        try exact Hl.
      destruct (resolve n) as [d|]; [|exact Hl].
      rewrite dom_insert_L. apply union_least; [|exact Hl].
      apply singleton_subseteq_l, drone_key_in_keys.
  - split.
    + unfold drone_keys. cbn [_gps_active MissionPlannerWindow_init].
      rewrite dom_insert_L, dom_singleton_L. reflexivity.
    + cbn [_last_positions MissionPlannerWindow_init]. rewrite dom_empty_L.
      apply empty_subseteq.
Qed.

Lemma after_card d c w :
  card_of d (after c w)
  = if decide (target c = Some d)
    then match c with
         | SetGlobalLive _ => card_of d w
         | SetDroneLive _ live =>
             with_status_lbl (live_label live (status_lbl (card_of d w)))
               (card_of d w)
         | SetDroneGpsActive _ active =>
             with_gps_lbl (gps_label active (gps_lbl (card_of d w)))
               (card_of d w)
         | UpdateDronePosition _ lat lon alt t =>
             if gps_flag d w
             then positioned (Some lat) (Some lon) (Some alt) t (card_of d w)
             else card_of d w
         end
    else card_of d w.
Proof.
  destruct c as [live | n live | n active | n lat lon alt t];
    cbn [after target]; [destruct d; case_decide; reflexivity | | |];
    destruct (resolve n) as [d'|];
    try (rewrite decide_False by discriminate; reflexivity);
    (destruct (decide (d' = d)) as [->|Hne];
     [rewrite decide_True by reflexivity
     |rewrite decide_False by congruence]).
  - apply card_of_with_card_same.
  - rewrite card_of_with_card. apply decide_False. congruence.
  - rewrite card_of_with_card_same. reflexivity.
  - rewrite card_of_with_card, card_of_with_gps_active.
    apply decide_False. congruence.
  - rewrite card_of_with_last_positions.
    destruct (gps_flag d w); [apply card_of_with_card_same | reflexivity].
  - rewrite card_of_with_last_positions.
    destruct (gps_flag d' w); [|reflexivity].
    rewrite card_of_with_card. apply decide_False. congruence.
Qed.

Lemma after_global_status c w :
  global_status (after c w)
  = match c with
    | SetGlobalLive live => live_label live (global_status w)
    | _ => global_status w
    end.
Proof.
  destruct c as [live | n live | n active | n lat lon alt t]; cbn [after];
    [reflexivity | | |]; destruct (resolve n) as [d|]; try reflexivity.
  - destruct d; reflexivity.
  - destruct d; reflexivity.
  - destruct (gps_flag d w), d; reflexivity.
Qed.

Lemma tiles_positioned la lo al ut c t_lat t_lon t_alt t_upd :
  tiles c = (Some t_lat, Some t_lon, Some t_alt, Some t_upd) ->
  tiles (positioned la lo al ut c)
  = (Some (from_option (Py.format_f 6) t_lat la),
     Some (from_option (Py.format_f 6) t_lon lo),
     Some (from_option (fun x => Py.format_f 1 x +:+ " m") t_alt al),
     Some (default t_upd ut)).
Proof.
  intros Ht. destruct (set_position_tiles c _ _ _ _ la lo al ut Ht)
    as (c' & Hrun & Ht').
  rewrite set_position_returns in Hrun. injection Hrun as <-. exact Ht'.
Qed.

Lemma after_shows_tiles d c w :
  shows_tiles (card_of d w) -> shows_tiles (card_of d (after c w)).
Proof.
  intros Hw. rewrite after_card. case_decide; [|exact Hw].
  destruct c as [live | n live | n active | n lat lon alt t];
    try exact Hw.
  destruct (gps_flag d w); [|exact Hw].
  destruct Hw as (a & b & e & u & Ht).
  eexists _, _, _, _. apply tiles_positioned. exact Ht.
Qed.

(** X7: after every run of calls from the constructed window both cards
    still show their four tiles: every tile frame has its value label, so
    [_set_kv_value] never meets a frame without one. *)
Theorem reachable_cards_show_four_tiles (cs : list call) (d : drone) :
  exists w t_lat t_lon t_alt t_upd,
    run cs MissionPlannerWindow_init = Returned tt w /\
    tiles (card_of d w) = (Some t_lat, Some t_lon, Some t_alt, Some t_upd).
Proof.
  destruct (run_invariant (fun w => shows_tiles (card_of d w))
              (after_shows_tiles d) cs MissionPlannerWindow_init)
    as (w & Hrun & a & b & e & u & Ht).
  - destruct d; repeat eexists.
  - exists w, a, b, e, u. auto.
Qed.

Lemma live_label_paired live l : status_paired (live_label live l).
Proof. exists live. split; [reflexivity | apply lookup_insert_eq]. Qed.

(** X8: after every run of calls from the constructed window the global
    banner and both status labels read "Status: Live" exactly when their
    "live" property, which selects the colour, is [True], and
    "Status: Offline" exactly when it is [False]. *)
Theorem reachable_status_labels_are_paired (cs : list call) :
  exists w,
    run cs MissionPlannerWindow_init = Returned tt w /\
    status_paired (global_status w) /\
    forall d, status_paired (status_lbl (card_of d w)).
Proof.
  apply (run_invariant
           (fun w => status_paired (global_status w) /\
                     forall d, status_paired (status_lbl (card_of d w)))).
  - intros c w [Hg Hc]. split.
    + rewrite after_global_status. destruct c; auto using live_label_paired.
    + intros d. rewrite after_card. case_decide; [|apply Hc].
      destruct c as [live | n live | n active | n lat lon alt t];
        try apply Hc.
      * apply live_label_paired.
      * destruct (gps_flag d w); apply Hc.
  - split; [|intros []]; exists false; split; reflexivity.
Qed.

Lemma drone_key_ne d d' : d <> d' -> drone_key d <> drone_key d'.
Proof. intros Hne E. apply Hne, drone_key_inj, E. Qed.

Lemma other_ne d : other d <> d.
Proof. destruct d; discriminate. Qed.

Lemma resolve_eqb n d :
  String.eqb (normalize n) (drone_key d)
  = bool_decide (resolve n = Some d).
Proof.
  destruct (resolve n) as [d'|] eqn:E.
  - rewrite (resolve_Some _ _ E).
    destruct (decide (d' = d)) as [->|Hne].
    + rewrite String.eqb_refl, bool_decide_eq_true_2; reflexivity.
    + rewrite bool_decide_eq_false_2 by congruence.
      apply String.eqb_neq, drone_key_ne, Hne.
  - rewrite bool_decide_eq_false_2 by discriminate.
    apply String.eqb_neq. apply resolve_None in E.
    destruct d; apply E.
Qed.

(** One call: the drone's flag and label show the call's argument if it is
    a [set_drone_gps_active] for the drone, and what they showed otherwise. *)
Lemma after_gps_shows d c w o :
  gps_shows d w o ->
  gps_shows d (after c w)
    match c with
    | SetDroneGpsActive n active =>
        if String.eqb (normalize n) (drone_key d) then Some active else o
    | _ => o
    end.
Proof.
  intros Hw.
  assert (Hkeep : target c <> Some d -> gps_shows d (after c w) o).
  { intros Ht. unfold gps_shows. rewrite after_gps_active, after_card.
    rewrite decide_False by exact Ht.
    destruct c as [live | n live | n active | n lat lon alt t];
      try exact Hw.
    cbn [target] in Ht. destruct (resolve n) as [d'|]; [|exact Hw].
    rewrite lookup_insert_ne by (apply drone_key_ne; congruence). exact Hw. }
  destruct c as [live | n live | n active | n lat lon alt t].
  - apply Hkeep. discriminate.
  - unfold gps_shows. rewrite after_gps_active, after_card.
    case_decide; exact Hw.
  - rewrite resolve_eqb. case_bool_decide as E; [|apply Hkeep, E].
    unfold gps_shows. rewrite after_gps_active, after_card, E.
    rewrite decide_True by exact E.
    cbn [gps_lbl with_gps_lbl gps_label text property].
    rewrite !lookup_insert_eq. auto.
  - unfold gps_shows. rewrite after_gps_active, after_card.
    case_decide; [|exact Hw]. destruct (gps_flag d w); exact Hw.
Qed.

Lemma run_gps_shows d cs :
  forall w o,
    gps_shows d w o ->
    exists w', run cs w = Returned tt w' /\ gps_shows d w' (last_gps d cs o).
Proof.
  induction cs as [|c cs IH]; intros w o Hw.
  - exists w. split; [reflexivity | exact Hw].
  - destruct (IH _ _ (after_gps_shows d c w o Hw)) as (w' & Hrun & Hw').
    exists w'. split; [|exact Hw']. cbn [run].
    rewrite (bind_returned _ _ _ _ _ (perform_after c w)). exact Hrun.
Qed.

(** X9: after every run of calls from the constructed window a drone's GPS
    flag, the text of its GPS label and the label's "gps" property are the
    ones the last [set_drone_gps_active] of the run for that drone set from
    its argument, and the constructed ones, flag off with "GPS: --" and
    "unknown", if the run has no such call; so the flag that gates the
    drone's position updates is true exactly when the label reads
    "GPS: Active". *)
Theorem reachable_gps_label_follows_flag (cs : list call) (d : drone) :
  exists w,
    run cs MissionPlannerWindow_init = Returned tt w /\
    match last_gps d cs None with
    | None =>
        _gps_active w !! drone_key d = Some false /\
        text (gps_lbl (card_of d w)) = "GPS: --" /\
        property (gps_lbl (card_of d w)) !! "gps" = Some (QString "unknown")
    | Some active =>
        _gps_active w !! drone_key d = Some active /\
        text (gps_lbl (card_of d w))
        = (if active then "GPS: Active" else "GPS: Inactive") /\
        property (gps_lbl (card_of d w)) !! "gps"
        = Some (QString (if active then "active" else "inactive"))
    end /\
    (gps_flag d w = true <-> text (gps_lbl (card_of d w)) = "GPS: Active").
Proof.
  destruct (run_gps_shows d cs MissionPlannerWindow_init None)
    as (w & Hrun & Hw); [destruct d; repeat split|].
  exists w. split; [exact Hrun|]. split; [exact Hw|].
  unfold gps_flag, gps_shows in *.
  destruct (last_gps d cs None) as [[]|]; destruct Hw as (-> & -> & _);
    cbn; split; (reflexivity || discriminate).
Qed.

(** X10: a call for one drone leaves the other drone alone: its card, its
    GPS flag and its cached position are as before, and so is the global
    banner. *)
Theorem call_for_one_drone_leaves_the_other (c : call) (d : drone)
    (w : MissionPlannerWindow) :
  target c = Some d ->
  exists w',
    perform c w = Returned tt w' /\
    card_of (other d) w' = card_of (other d) w /\
    _gps_active w' !! drone_key (other d)
    = _gps_active w !! drone_key (other d) /\
    _last_positions w' !! drone_key (other d)
    = _last_positions w !! drone_key (other d) /\
    global_status w' = global_status w.
Proof.
  intros Ht. exists (after c w). split; [apply perform_after|].
  rewrite after_card, after_gps_active, after_last_positions,
    after_global_status.
  rewrite decide_False
    by (rewrite Ht; intros [= E]; exact (other_ne d (eq_sym E))).
  destruct c as [live | n live | n active | n lat lon alt t];
    cbn [target] in Ht; try discriminate; cbv iota; rewrite ?Ht;
    rewrite ?lookup_insert_ne
      by (apply drone_key_ne; intros E; exact (other_ne d (eq_sym E)));
    auto.
Qed.

Lemma call_for_one_drone_leaves_the_other_witness :
  exists w',
    perform (SetDroneGpsActive " FREYJA" true) MissionPlannerWindow_init
    = Returned tt w' /\
    card_of Cleo w' = card_of Cleo MissionPlannerWindow_init /\
    _gps_active w' !! "cleo" = Some false.
Proof.
  destruct (call_for_one_drone_leaves_the_other
              (SetDroneGpsActive " FREYJA" true) Freyja
              MissionPlannerWindow_init eq_refl)
    as (w' & Hrun & Hcard & Hflag & _).
  exists w'. split; [exact Hrun|]. split; [exact Hcard|].
  etransitivity; [exact Hflag | reflexivity].
Defined.

Lemma with_status_lbl_same c : with_status_lbl (status_lbl c) c = c.
Proof. destruct c; reflexivity. Qed.

Lemma with_gps_lbl_same c : with_gps_lbl (gps_lbl c) c = c.
Proof. destruct c; reflexivity. Qed.

Lemma blank_tiles_positioned la lo al ut c :
  blank_tiles (positioned la lo al ut c) = blank_tiles c.
Proof.
  unfold blank_tiles, positioned.
  cbn [_name status_lbl lat_card lon_card alt_card updated_card gps_lbl].
  rewrite !kv_blank_put_opt. reflexivity.
Qed.

(** X11: what each window method can change. [set_global_live] changes the
    global banner only; [set_drone_live] changes status labels only;
    [set_drone_gps_active] changes GPS flags and GPS labels only;
    [update_drone_position] changes cached positions and texts of tile
    value labels only. *)
Theorem window_methods_change_their_own_part (w : MissionPlannerWindow) :
  (forall live,
   exists w',
     set_global_live live w = Returned tt w' /\
     w' = with_global_status (global_status w') w) /\
  (forall n live,
   exists w',
     set_drone_live n live w = Returned tt w' /\
     global_status w' = global_status w /\
     _gps_active w' = _gps_active w /\
     _last_positions w' = _last_positions w /\
     forall d,
       card_of d w'
       = with_status_lbl (status_lbl (card_of d w')) (card_of d w)) /\
  (forall n active,
   exists w',
     set_drone_gps_active n active w = Returned tt w' /\
     global_status w' = global_status w /\
     _last_positions w' = _last_positions w /\
     forall d,
       card_of d w' = with_gps_lbl (gps_lbl (card_of d w')) (card_of d w)) /\
  (forall n lat lon alt t,
   exists w',
     update_drone_position n lat lon alt t w = Returned tt w' /\
     global_status w' = global_status w /\
     _gps_active w' = _gps_active w /\
     forall d, blank_tiles (card_of d w') = blank_tiles (card_of d w)).
Proof.
  split; [|split; [|split]].
  - intros live. eexists. split; reflexivity.
  - intros n live. exists (after (SetDroneLive n live) w).
    split; [apply (perform_after (SetDroneLive n live))|].
    rewrite after_global_status, after_gps_active, after_last_positions.
    do 3 (split; [reflexivity|]). intros d. rewrite after_card.
    case_decide; [reflexivity | symmetry; apply with_status_lbl_same].
  - intros n active. exists (after (SetDroneGpsActive n active) w).
    split; [apply (perform_after (SetDroneGpsActive n active))|].
    rewrite after_global_status, after_last_positions.
    do 2 (split; [reflexivity|]). intros d. rewrite after_card.
    case_decide; [reflexivity | symmetry; apply with_gps_lbl_same].
  - intros n lat lon alt t. exists (after (UpdateDronePosition n lat lon alt t) w).
    split; [apply (perform_after (UpdateDronePosition n lat lon alt t))|].
    rewrite after_global_status, after_gps_active.
    do 2 (split; [reflexivity|]). intros d. rewrite after_card.
    case_decide; [|reflexivity].
    destruct (gps_flag d w); [apply blank_tiles_positioned | reflexivity].
Qed.

(** X12: the cached position of a drone is the last one received for it:
    after any run of calls, from any window, the drone's entry of
    [_last_positions] holds the triple of the last [update_drone_position]
    of the run whose name stands for the drone, whatever the GPS flags
    were, and is the entry the run started with if there was none. *)
Theorem cached_position_is_last_update (cs : list call) (d : drone) :
  forall w,
  exists w',
    run cs w = Returned tt w' /\
    _last_positions w' !! drone_key d
    = last_update d cs (_last_positions w !! drone_key d).
Proof.
  induction cs as [|c cs IH]; intros w.
  - exists w. split; reflexivity.
  - destruct (IH (after c w)) as (w' & Hrun & Hlast).
    exists w'. cbn [run last_update].
    rewrite (bind_returned _ _ _ _ _ (perform_after c w)).
    split; [exact Hrun|]. rewrite Hlast. f_equal.
    rewrite after_last_positions.
    destruct c as [live | n live | n active | n lat lon alt t];
      try reflexivity.
    rewrite resolve_eqb. destruct (resolve n) as [d'|].
    + destruct (decide (d' = d)) as [->|Hne].
      * rewrite bool_decide_eq_true_2 by reflexivity. apply lookup_insert_eq.
      * rewrite bool_decide_eq_false_2 by congruence.
        apply lookup_insert_ne, drone_key_ne, Hne.
    + rewrite bool_decide_eq_false_2 by discriminate. reflexivity.
Qed.

Lemma window_eq (w1 w2 : MissionPlannerWindow) :
  global_status w1 = global_status w2 ->
  (forall d, card_of d w1 = card_of d w2) ->
  _last_positions w1 = _last_positions w2 ->
  _gps_active w1 = _gps_active w2 ->
  w1 = w2.
Proof.
  destruct w1, w2. cbn. intros -> Hc -> ->.
  pose proof (Hc Freyja) as Hf. pose proof (Hc Cleo) as Hcl.
  cbn in Hf, Hcl. subst. reflexivity.
Qed.

Lemma gps_flag_after d c w :
  target c <> Some d -> gps_flag d (after c w) = gps_flag d w.
Proof.
  intros Ht. unfold gps_flag. rewrite after_gps_active.
  destruct c as [live | n live | n active | n lat lon alt t]; try reflexivity.
  cbn [target] in Ht. destruct (resolve n) as [d'|]; [|reflexivity].
  rewrite lookup_insert_ne; [reflexivity|].
  apply drone_key_ne. congruence.
Qed.

Lemma gps_flag_after_update d n lat lon alt t w :
  gps_flag d (after (UpdateDronePosition n lat lon alt t) w) = gps_flag d w.
Proof. unfold gps_flag. rewrite after_gps_active. reflexivity. Qed.

Lemma card_after_other d c w :
  target c <> Some d -> card_of d (after c w) = card_of d w.
Proof. intros Ht. rewrite after_card. apply decide_False, Ht. Qed.

(** X13: from every window a run of calls leads to, switching a drone's
    GPS on and then updating its position makes the card show exactly the
    passed values: latitude and longitude with 6 decimals, altitude with 1
    decimal and " m", and the updated text if one is passed, the one shown
    before otherwise. *)
Theorem activated_drone_shows_the_update (cs : list call) (d : drone)
    (n n' : string) (lat lon alt : float) (ut : option string) :
  normalize n = drone_key d ->
  normalize n' = drone_key d ->
  exists w t_upd w',
    run cs MissionPlannerWindow_init = Returned tt w /\
    kv_text (updated_card (card_of d w)) = Some t_upd /\
    (set_drone_gps_active n true ;;
     update_drone_position n' lat lon alt ut) w = Returned tt w' /\
    tiles (card_of d w')
    = (Some (Py.format_f 6 lat), Some (Py.format_f 6 lon),
       Some (Py.format_f 1 alt +:+ " m"), Some (default t_upd ut)).
Proof.
  intros Hn Hn'.
  destruct (run_invariant (fun w => shows_tiles (card_of d w))
              (after_shows_tiles d) cs MissionPlannerWindow_init)
    as (w & Hrun & a & b & e & u & Ht); [destruct d; repeat eexists|].
  exists w, u. eexists. split; [exact Hrun|].
  split; [unfold tiles in Ht; congruence|].
  assert (R1 : resolve n = Some d) by (apply resolve_known, Hn).
  assert (R2 : resolve n' = Some d) by (apply resolve_known, Hn').
  split.
  - rewrite (bind_returned _ _ _ _ _
               (perform_after (SetDroneGpsActive n true) w)).
    apply (perform_after (UpdateDronePosition n' lat lon alt ut)).
  - rewrite after_card, decide_True by exact R2.
    assert (Hflag : gps_flag d (after (SetDroneGpsActive n true) w) = true).
    { unfold gps_flag. rewrite after_gps_active, R1, lookup_insert_eq.
      reflexivity. }
    rewrite Hflag.
    assert (Ht1 : tiles (card_of d (after (SetDroneGpsActive n true) w))
                  = (Some a, Some b, Some e, Some u)).
    { rewrite after_card, decide_True by exact R1. exact Ht. }
    rewrite (tiles_positioned _ _ _ _ _ _ _ _ _ Ht1). reflexivity.
Qed.

Lemma activated_drone_shows_the_update_witness :
  exists w',
    run [UpdateDronePosition "cleo" 1 2 3 (Some "11:59:59");
         SetDroneGpsActive " Cleo " true;
         UpdateDronePosition "CLEO" 12.9716 77.5946 45.333 None]
      MissionPlannerWindow_init = Returned tt w' /\
    tiles (cleo_card w')
    = (Some "12.971600", Some "77.594600", Some "45.3 m", Some "--").
Proof.
  destruct (activated_drone_shows_the_update
              [UpdateDronePosition "cleo" 1 2 3 (Some "11:59:59")] Cleo
              " Cleo " "CLEO" 12.9716 77.5946 45.333 None eq_refl eq_refl)
    as (w & u & w' & Hrun & Hu & Hrun' & Ht).
  exists w'. split.
  - vm_compute in Hrun. injection Hrun as <-. exact Hrun'.
  - vm_compute in Hrun. injection Hrun as <-.
    vm_compute in Hu. injection Hu as <-.
    etransitivity; [exact Ht | vm_compute; reflexivity].
Defined.

Lemma after_commute c1 c2 d1 d2 w :
  target c1 = Some d1 -> target c2 = Some d2 -> d1 <> d2 ->
  after c2 (after c1 w) = after c1 (after c2 w).
Proof.
  intros T1 T2 Hne.
  assert (K : drone_key d1 <> drone_key d2) by (apply drone_key_ne, Hne).
  apply window_eq.
  - rewrite !after_global_status.
    destruct c1, c2; try discriminate; reflexivity.
  - intros d. destruct (decide (d = d1)) as [->|N1].
    + rewrite (card_after_other d1 c2) by congruence.
      rewrite !(after_card d1 c1), !decide_True by exact T1.
      rewrite (card_after_other d1 c2) by congruence.
      rewrite (gps_flag_after d1 c2) by congruence. reflexivity.
    + rewrite (card_after_other d c1 (after c2 w)) by congruence.
      rewrite !(after_card d c2).
      rewrite (card_after_other d c1) by congruence.
      case_decide as E; [|reflexivity].
      assert (d = d2) by congruence. subst d.
      rewrite (gps_flag_after d2 c1) by congruence. reflexivity.
  - rewrite !after_last_positions.
    destruct c1, c2; try discriminate; try reflexivity.
    cbn [target] in T1, T2. rewrite T1, T2.
    apply insert_insert_ne. congruence.
  - rewrite !after_gps_active.
    destruct c1, c2; try discriminate; try reflexivity.
    cbn [target] in T1, T2. rewrite T1, T2.
    apply insert_insert_ne. congruence.
Qed.

(** X14: calls for different drones can arrive in either order: a call for
    one drone followed by a call for the other leaves the same window as
    the two calls the other way round. *)
Theorem calls_for_different_drones_commute (c1 c2 : call) (d1 d2 : drone)
    (w : MissionPlannerWindow) :
  target c1 = Some d1 ->
  target c2 = Some d2 ->
  d1 <> d2 ->
  (perform c1 ;; perform c2) w = (perform c2 ;; perform c1) w.
Proof.
  intros T1 T2 Hne.
  rewrite (bind_returned _ _ _ _ _ (perform_after c1 w)).
  rewrite (bind_returned _ _ _ _ _ (perform_after c2 w)).
  rewrite !perform_after. f_equal. apply (after_commute c1 c2 d1 d2); assumption.
Qed.

Lemma calls_for_different_drones_commute_witness :
  (perform (UpdateDronePosition "Freyja" 12.9716 77.5946 45.333 None) ;;
   perform (SetDroneGpsActive "cleo" true)) MissionPlannerWindow_init
  = (perform (SetDroneGpsActive "cleo" true) ;;
     perform (UpdateDronePosition "Freyja" 12.9716 77.5946 45.333 None))
      MissionPlannerWindow_init.
Proof.
  apply (calls_for_different_drones_commute
           (UpdateDronePosition "Freyja" 12.9716 77.5946 45.333 None)
           (SetDroneGpsActive "cleo" true) Freyja Cleo);
    [reflexivity | reflexivity | discriminate].
Defined.

Lemma positioned_positioned la lo al ut la' lo' al' ut' c :
  positioned la' lo' al' ut' (positioned la lo al ut c)
  = positioned (or_else la' la) (or_else lo' lo) (or_else al' al)
      (or_else ut' ut) c.
Proof.
  unfold positioned.
  cbn [_name status_lbl lat_card lon_card alt_card updated_card gps_lbl].
  rewrite !kv_put_opt_merge, !fmap_or_else. reflexivity.
Qed.

Lemma resolve_normalize n n' : normalize n = normalize n' -> resolve n = resolve n'.
Proof. unfold resolve. intros ->. reflexivity. Qed.

(** X15: of two position updates in a row under names with the same
    trimmed, lowercased form, the later one overwrites the earlier one in
    the cache and on the card, except that an updated text the later call
    omits is taken from the earlier call: the two calls are the later call
    with that updated text. *)
Theorem later_update_overwrites_earlier (n n' : string)
    (lat lon alt : float) (ut : option string)
    (lat' lon' alt' : float) (ut' : option string)
    (w : MissionPlannerWindow) :
  normalize n = normalize n' ->
  (update_drone_position n lat lon alt ut ;;
   update_drone_position n' lat' lon' alt' ut') w
  = update_drone_position n' lat' lon' alt' (or_else ut' ut) w.
Proof.
  intros Hn.
  pose proof (perform_after (UpdateDronePosition n lat lon alt ut) w) as H1.
  cbn [perform] in H1. rewrite (bind_returned _ _ _ _ _ H1).
  pose proof (perform_after (UpdateDronePosition n' lat' lon' alt' ut')) as H2.
  pose proof (perform_after
                (UpdateDronePosition n' lat' lon' alt' (or_else ut' ut)))
    as H3.
  cbn [perform] in H2, H3. rewrite H2, H3.
  f_equal. apply window_eq.
  - rewrite !after_global_status. reflexivity.
  - intros d. rewrite !after_card. cbn [target].
    rewrite (resolve_normalize _ _ Hn). case_decide; [|reflexivity].
    rewrite gps_flag_after_update.
    destruct (gps_flag d w); [|reflexivity].
    apply positioned_positioned.
  - rewrite !after_last_positions, (resolve_normalize _ _ Hn).
    destruct (resolve n') as [d|]; [apply insert_insert_eq | reflexivity].
  - rewrite !after_gps_active. reflexivity.
Qed.

Lemma later_update_overwrites_earlier_witness :
  (update_drone_position "Freyja" 1 2 3 (Some "11:59:59") ;;
   update_drone_position " freyja " 12.9716 77.5946 45.333 None)
    MissionPlannerWindow_init
  = update_drone_position " freyja " 12.9716 77.5946 45.333 (Some "11:59:59")
      MissionPlannerWindow_init.
Proof.
  apply (later_update_overwrites_earlier "Freyja" " freyja " 1 2 3
           (Some "11:59:59") 12.9716 77.5946 45.333 None).
  reflexivity.
Defined.

(** ** Names up to case and surrounding whitespace *)

Lemma isspace_lower_char c : Py.isspace (Py.lower_char c) = Py.isspace c.
Proof. destruct c as [[] [] [] [] [] [] [] []]; reflexivity. Qed.

Lemma lstrip_lower s : Py.lstrip (Py.lower s) = Py.lower (Py.lstrip s).
Proof.
  induction s as [|c s IH]; [reflexivity|].
  cbn [Py.lower Py.lstrip]. rewrite isspace_lower_char.
  destruct (Py.isspace c); [exact IH | reflexivity].
Qed.

Lemma rstrip_lower s : Py.rstrip (Py.lower s) = Py.lower (Py.rstrip s).
Proof.
  induction s as [|c s IH]; [reflexivity|].
  cbn [Py.lower Py.rstrip]. rewrite IH, isspace_lower_char.
  destruct (Py.rstrip s); cbn [Py.lower]; [|reflexivity].
  destruct (Py.isspace c); reflexivity.
Qed.

Lemma strip_lower s : Py.strip (Py.lower s) = Py.lower (Py.strip s).
Proof. unfold Py.strip. rewrite lstrip_lower, rstrip_lower. reflexivity. Qed.

Lemma lstrip_all_space r : all_space r = true -> Py.lstrip r = "".
Proof.
  induction r as [|c r IH]; [reflexivity|].
  cbn [all_space Py.lstrip]. intros [-> Hr]%andb_true_iff. exact (IH Hr).
Qed.

Lemma rstrip_all_space r : all_space r = true -> Py.rstrip r = "".
Proof.
  induction r as [|c r IH]; [reflexivity|].
  cbn [all_space Py.rstrip]. intros [-> Hr]%andb_true_iff.
  rewrite (IH Hr). reflexivity.
Qed.

Lemma lstrip_app_space l t :
  all_space l = true -> Py.lstrip (l +:+ t) = Py.lstrip t.
Proof.
  induction l as [|c l IH]; [reflexivity|].
  cbn [all_space]. intros [Hc Hl]%andb_true_iff.
  change (String c l +:+ t) with (String c (l +:+ t)).
  cbn [Py.lstrip]. rewrite Hc. exact (IH Hl).
Qed.

Lemma rstrip_app_space t r :
  all_space r = true -> Py.rstrip (t +:+ r) = Py.rstrip t.
Proof.
  intros Hr. induction t as [|c t IH]; [apply rstrip_all_space, Hr|].
  change (String c t +:+ r) with (String c (t +:+ r)).
  cbn [Py.rstrip]. rewrite IH. reflexivity.
Qed.

Lemma strip_app_space t r :
  all_space r = true -> Py.strip (t +:+ r) = Py.strip t.
Proof.
  intros Hr. unfold Py.strip. induction t as [|c t IH].
  - change ("" +:+ r) with r. rewrite (lstrip_all_space r Hr). reflexivity.
  - change (String c t +:+ r) with (String c (t +:+ r)).
    cbn [Py.lstrip]. destruct (Py.isspace c); [exact IH|].
    apply (rstrip_app_space (String c t) r Hr).
Qed.

Lemma normalize_padded l n r :
  all_space l = true -> all_space r = true ->
  normalize (l +:+ n +:+ r) = normalize n.
Proof.
  intros Hl Hr. unfold normalize, Py.strip.
  rewrite (lstrip_app_space l _ Hl).
  fold (Py.strip (n +:+ r)). fold (Py.strip n).
  rewrite (strip_app_space n r Hr). reflexivity.
Qed.

Lemma normalize_case n n' : Py.lower n = Py.lower n' -> normalize n = normalize n'.
Proof. unfold normalize. rewrite <- !strip_lower. intros ->. reflexivity. Qed.

Lemma methods_read_normalized_name a b :
  normalize a = normalize b ->
  forall live active lat lon alt ut w,
    set_drone_live a live w = set_drone_live b live w /\
    set_drone_gps_active a active w = set_drone_gps_active b active w /\
    update_drone_position a lat lon alt ut w
    = update_drone_position b lat lon alt ut w.
Proof.
  intros H live active lat lon alt ut w.
  unfold set_drone_live, set_drone_gps_active, update_drone_position.
  cbv zeta. unfold normalize in H. rewrite H. auto.
Qed.

(** X16: drone names are read up to case and surrounding whitespace: a
    name with whitespace put before and after it, in any mix of upper and
    lower case, has the same effect in [set_drone_live],
    [set_drone_gps_active] and [update_drone_position] as the name itself. *)
Theorem names_are_read_up_to_case_and_padding (l r n n' : string) :
  all_space l = true ->
  all_space r = true ->
  Py.lower n = Py.lower n' ->
  forall live active lat lon alt ut w,
    set_drone_live (l +:+ n +:+ r) live w = set_drone_live n' live w /\
    set_drone_gps_active (l +:+ n +:+ r) active w
    = set_drone_gps_active n' active w /\
    update_drone_position (l +:+ n +:+ r) lat lon alt ut w
    = update_drone_position n' lat lon alt ut w.
Proof.
  intros Hl Hr Hn. apply methods_read_normalized_name.
  rewrite (normalize_padded l n r Hl Hr). apply normalize_case, Hn.
Qed.

Lemma names_are_read_up_to_case_and_padding_witness :
  update_drone_position "  FrEyJa " 12.9716 77.5946 45.333 None
    MissionPlannerWindow_init
  = update_drone_position "freyja" 12.9716 77.5946 45.333 None
      MissionPlannerWindow_init.
Proof.
  apply (names_are_read_up_to_case_and_padding "  " " " "FrEyJa" "freyja"
           eq_refl eq_refl eq_refl true true).
Defined.

(** ** Which image a label shows *)

Section AssetsFacts.

Context {QPixmap : Type}.
Variable path_exists : string -> bool.
Variable QPixmap_load : string -> QPixmap.
Variable isNull : QPixmap -> bool.
Variable scaledToHeight : Z -> QPixmap -> QPixmap.
Variable ASSETS_DIR : string.

Let safe := _safe_pixmap QPixmap path_exists QPixmap_load isNull scaledToHeight.
Let image := card_image QPixmap path_exists QPixmap_load isNull scaledToHeight.
Let usable := loads QPixmap path_exists QPixmap_load isNull.
Let file := asset ASSETS_DIR.

Lemma _safe_pixmap_loads path h :
  safe path (Some h)
  = if usable path then Some (scaledToHeight h (QPixmap_load path)) else None.
Proof.
  unfold safe, usable, _safe_pixmap, loads.
  destruct (path_exists path); [|reflexivity]. cbn.
  destruct (isNull (QPixmap_load path)); reflexivity.
Qed.

(** X17: a drone's card shows the drone's own picture when that file
    exists and loads; when the file exists and does not load the card shows
    the text "[drone]" and [drone.png] is not tried; when the file is
    missing the card shows [drone.png] if that exists and loads and the
    text otherwise. A picture it shows is always a loaded, not null pixmap
    scaled to height 78. *)
Theorem drone_image_falls_back_on_missing_file_only (d : drone) :
  let own := own_picture ASSETS_DIR d in
  let generic := file "drone.png" in
  let shown := image (Some (image_path_of path_exists ASSETS_DIR d)) in
  (path_exists own = true ->
   shown = if isNull (QPixmap_load own) then ShowsText "[drone]"
           else ShowsPixmap (scaledToHeight 78 (QPixmap_load own))) /\
  (path_exists own = false ->
   shown = if usable generic
           then ShowsPixmap (scaledToHeight 78 (QPixmap_load generic))
           else ShowsText "[drone]") /\
  (forall pix,
     shown = ShowsPixmap pix ->
     exists path,
       pix = scaledToHeight 78 (QPixmap_load path) /\
       path_exists path = true /\ isNull (QPixmap_load path) = false).
Proof.
  cbv zeta. unfold image, card_image. cbv zeta. fold safe.
  assert (Hpath : image_path_of path_exists ASSETS_DIR d
                  = if path_exists (own_picture ASSETS_DIR d)
                    then own_picture ASSETS_DIR d else file "drone.png")
    by (destruct d; reflexivity).
  rewrite Hpath, _safe_pixmap_loads.
  split; [|split].
  - intros Hown. rewrite Hown. unfold usable, loads.
    rewrite Hown. cbn [andb].
    destruct (isNull (QPixmap_load (own_picture ASSETS_DIR d))); reflexivity.
  - intros Hown. rewrite Hown.
    destruct (usable (file "drone.png")); reflexivity.
  - intros pix.
    destruct (usable _) eqn:Hu; [|discriminate].
    intros [= <-]. eexists. split; [reflexivity|].
    unfold usable, loads in Hu. apply andb_true_iff in Hu.
    destruct Hu as [He Hn]. apply negb_true_iff in Hn. auto.
Qed.

(** X18: the logo is the first of [manas-full-white.png] and [logo.png]
    that exists and loads, scaled to height 50, and the two-line text
    "PROJECT MANAS" when neither does: a first file that exists and does not
    load gives way to the second. *)
Theorem logo_is_first_file_that_loads :
  logo QPixmap path_exists QPixmap_load isNull scaledToHeight ASSETS_DIR
  = if usable (file "manas-full-white.png")
    then ShowsPixmap
           (scaledToHeight 50 (QPixmap_load (file "manas-full-white.png")))
    else if usable (file "logo.png")
    then ShowsPixmap (scaledToHeight 50 (QPixmap_load (file "logo.png")))
    else ShowsText logo_text.
Proof.
  unfold logo. cbv zeta. fold file. fold safe.
  rewrite !_safe_pixmap_loads.
  destruct (usable (file "manas-full-white.png")); [reflexivity|].
  destruct (usable (file "logo.png")); reflexivity.
Qed.

End AssetsFacts.

Lemma drone_image_falls_back_on_missing_file_only_witness :
  card_image string (fun p => String.eqb p "assets/Freyja.png"
                              || String.eqb p "assets/drone.png")
    (fun p => p) (fun p => String.eqb p "assets/Freyja.png")
    (fun _ p => p)
    (Some (freyja_img (fun p => String.eqb p "assets/Freyja.png"
                                || String.eqb p "assets/drone.png")
             "assets"))
  = ShowsText "[drone]".
Proof.
  apply (proj1 (drone_image_falls_back_on_missing_file_only
                  (fun p => String.eqb p "assets/Freyja.png"
                            || String.eqb p "assets/drone.png")
                  (fun p => p) (fun p => String.eqb p "assets/Freyja.png")
                  (fun _ p => p) "assets" Freyja)).
  reflexivity.
Defined.
